(** * A trip planner: retrieval, scoring, itinerary chunking, cost

    Shallow embedding of [utils.py], [rag_pipeline.py] and [agents.py].

    - Python [str] values are sequences of code points below 256.
    - Python [float] is IEEE binary64: Rocq's primitive [float].
    - Python [int] is [Z].
    - JSON-like data that flows through the preference dictionary is a
      dynamically typed [value]; operations a Python type does not
      support raise, which is a [Raise] result here.
    - The language model, the JSON codec and the vector index are
      external: they are the fields of an [Env]. *)

From Stdlib Require Import ZArith Lia List String Ascii Bool Floats.
From Stdlib Require Import Sorted Permutation DecimalString.
Import ListNotations.

#[local] Set Warnings "-inexact-float,-register-all".
#[local] Open Scope string_scope.
#[local] Open Scope Z_scope.

(** ** Python strings *)

Module Str.

(** [str.isspace] on one code point below 256. *)
Definition is_space (c : ascii) : bool :=
  let n := nat_of_ascii c in
  ((9 <=? n) && (n <=? 13) || (28 <=? n) && (n <=? 32)
   || (n =? 133) || (n =? 160))%nat.

(** [str.lower] on one code point below 256. *)
Definition lower_char (c : ascii) : ascii :=
  let n := nat_of_ascii c in
  if ((65 <=? n) && (n <=? 90)
      || (192 <=? n) && (n <=? 222) && negb (n =? 215))%nat
  then ascii_of_nat (n + 32) else c.

Fixpoint lower (s : string) : string :=
  match s with
  | EmptyString => EmptyString
  | String c r => String (lower_char c) (lower r)
  end.

Fixpoint lstrip (s : string) : string :=
  match s with
  | EmptyString => EmptyString
  | String c r => if is_space c then lstrip r else s
  end.

Fixpoint rstrip (s : string) : string :=
  match s with
  | EmptyString => EmptyString
  | String c r =>
      match rstrip r with
      | EmptyString => if is_space c then EmptyString else String c EmptyString
      | r' => String c r'
      end
  end.

Definition strip (s : string) : string := rstrip (lstrip s).

Definition is_empty (s : string) : bool :=
  match s with EmptyString => true | _ => false end.

(** [needle in hay]. *)
Fixpoint contains (needle hay : string) : bool :=
  prefix needle hay
  || match hay with
     | EmptyString => false
     | String _ r => contains needle r
     end.

(** [s.split(sep)] for a one-character separator: never empty. *)
Fixpoint split (sep : ascii) (s : string) : list string :=
  match s with
  | EmptyString => [EmptyString]
  | String c r =>
      if Ascii.eqb c sep then EmptyString :: split sep r
      else match split sep r with
           | [] => [String c EmptyString]
           | w :: ws => String c w :: ws
           end
  end.

(** [sep.join(parts)]. *)
Fixpoint join (sep : string) (parts : list string) : string :=
  match parts with
  | [] => EmptyString
  | [p] => p
  | p :: ps => p ++ sep ++ join sep ps
  end.

Definition of_Z (z : Z) : string := NilZero.string_of_int (Z.to_int z).

End Str.

(** ** Dynamically typed values and exceptions *)

Inductive value : Type :=
| VNone
| VBool (b : bool)
| VInt (z : Z)
| VFloat (f : float)
| VStr (s : string)
| VList (l : list value)
| VDict (d : list (string * value)).

Inductive exn : Type :=
  AttributeError | TypeError | ValueError | OverflowError | KeyError.

Inductive res (A : Type) : Type :=
| Ret (a : A)
| Raise (e : exn).
Arguments Ret {A} a.
Arguments Raise {A} e.

Definition bind {A B} (m : res A) (k : A -> res B) : res B :=
  match m with
  | Ret a => k a
  | Raise e => Raise e
  end.

Notation "x <- m ;; k" := (bind m (fun x => k))
  (at level 61, m at next level, right associativity).

(** [try: m except Exception: h]. *)
Definition try_except {A} (m : res A) (h : A) : A :=
  match m with
  | Ret a => a
  | Raise _ => h
  end.

Module Py.

(** Truth value of an object. *)
Definition truthy (v : value) : bool :=
  match v with
  | VNone => false
  | VBool b => b
  | VInt z => negb (z =? 0)
  | VFloat f => negb (PrimFloat.eqb f 0%float)
  | VStr s => negb (Str.is_empty s)
  | VList l => match l with [] => false | _ => true end
  | VDict d => match d with [] => false | _ => true end
  end.

(** [a or b]. *)
Definition or (a b : value) : value := if truthy a then a else b.

(** Receiver of a [str] method such as [.strip()] or [.lower()]. *)
Definition as_str (v : value) : res string :=
  match v with
  | VStr s => Ret s
  | _ => Raise AttributeError
  end.

(** Dictionary lookup on the association list of a dict. *)
Fixpoint lookup (k : string) (d : list (string * value)) : option value :=
  match d with
  | [] => None
  | (k', v) :: r => if String.eqb k k' then Some v else lookup k r
  end.

(** [d[k] = v] on the association list: replace in place or append. *)
Fixpoint store (k : string) (v : value) (d : list (string * value))
  : list (string * value) :=
  match d with
  | [] => [(k, v)]
  | (k', v') :: r =>
      if String.eqb k k' then (k, v) :: r else (k', v') :: store k v r
  end.

(** [obj.get(k, default)]: only dicts have the method. *)
Definition get (obj : value) (k : string) (default : value) : res value :=
  match obj with
  | VDict d => Ret (match lookup k d with Some v => v | None => default end)
  | _ => Raise AttributeError
  end.

(** [obj[k] = v] for a string key. *)
Definition setitem (obj : value) (k : string) (v : value) : res value :=
  match obj with
  | VDict d => Ret (VDict (store k v d))
  | _ => Raise TypeError
  end.

Definition is_digit (c : ascii) : bool :=
  let n := nat_of_ascii c in ((48 <=? n) && (n <=? 57))%nat.

(** Digits of a decimal literal, single underscores allowed between
    digits. [acc] is [None] before the first digit; [us] tells that
    the previous character was an underscore. *)
Fixpoint digits (s : string) (acc : option Z) (us : bool) : option Z :=
  match s with
  | EmptyString => if us then None else acc
  | String c r =>
      if is_digit c then
        let d := Z.of_nat (nat_of_ascii c - 48) in
        digits r (Some (match acc with Some a => 10 * a + d | None => d end))
               false
      else if Ascii.eqb c "_" then
        match acc with
        | Some _ => if us then None else digits r acc true
        | None => None
        end
      else None
  end.

(** The padding [int] accepts around a literal: ASCII white space (9 to
    13 and 32) and the two Latin-1 spaces 133 and 160. The separators 28
    to 31, which [str.strip] removes, are not accepted. *)
Definition is_padding (c : ascii) : bool :=
  let n := nat_of_ascii c in
  ((9 <=? n) && (n <=? 13) || (n =? 32) || (n =? 133) || (n =? 160))%nat.

Fixpoint lstrip_padding (s : string) : string :=
  match s with
  | EmptyString => EmptyString
  | String c r => if is_padding c then lstrip_padding r else s
  end.

Fixpoint rstrip_padding (s : string) : string :=
  match s with
  | EmptyString => EmptyString
  | String c r =>
      match rstrip_padding r with
      | EmptyString =>
          if is_padding c then EmptyString else String c EmptyString
      | r' => String c r'
      end
  end.

(** The number of digit characters, leading zeros included. *)
Fixpoint count_digits (s : string) : Z :=
  match s with
  | EmptyString => 0
  | String c r => (if is_digit c then 1 else 0) + count_digits r
  end.

(** [int(s)] for text. A literal of more than 4300 digits is refused
    (the default of [sys.get_int_max_str_digits]). *)
Definition int_of_str (s : string) : res Z :=
  let t := rstrip_padding (lstrip_padding s) in
  let parsed :=
    match t with
    | String "-" r => option_map Z.opp (digits r None false)
    | String "+" r => digits r None false
    | _ => digits t None false
    end in
  match (if 4300 <? count_digits t then None else parsed) with
  | Some z => Ret z
  | None => Raise ValueError
  end.

(** [int(f)] for a float: truncation toward zero. *)
Definition int_of_float (f : float) : res Z :=
  match Prim2SF f with
  | S754_zero _ => Ret 0
  | S754_infinity _ => Raise OverflowError
  | S754_nan => Raise ValueError
  | S754_finite sg m e =>
      let a := if 0 <=? e then Z.pos m * 2 ^ e else Z.pos m / 2 ^ (- e) in
      Ret (if sg then - a else a)
  end.

(** [int(v)]. *)
Definition int (v : value) : res Z :=
  match v with
  | VInt z => Ret z
  | VBool b => Ret (if b then 1 else 0)
  | VFloat f => int_of_float f
  | VStr s => int_of_str s
  | VNone | VList _ | VDict _ => Raise TypeError
  end.

(** [sep.join(v)]: the items of a list (or the characters of a text)
    must all be text. *)
Fixpoint strs (l : list value) : res (list string) :=
  match l with
  | [] => Ret []
  | VStr s :: r => ss <- strs r ;; Ret (s :: ss)
  | _ :: _ => Raise TypeError
  end.

Fixpoint chars (s : string) : list string :=
  match s with
  | EmptyString => []
  | String c r => String c EmptyString :: chars r
  end.

Definition join (sep : string) (v : value) : res string :=
  match v with
  | VList l => ss <- strs l ;; Ret (Str.join sep ss)
  | VStr s => Ret (Str.join sep (chars s))
  | VDict d => Ret (Str.join sep (map fst d))
  | _ => Raise TypeError
  end.

(** [min(x, 5)] on a float [x]: the second argument wins only when it
    is strictly smaller. *)
Definition min5 (x : float) : float :=
  if PrimFloat.ltb 5%float x then 5%float else x.

End Py.

(** ** utils.py *)

Definition normalize_budget_level (budget_level : value) : res string :=
  s <- Py.as_str (Py.or budget_level (VStr "")) ;;
  let bl := Str.lower (Str.strip s) in
  if Str.contains "low" bl then Ret "low"
  else if Str.contains "high" bl then Ret "high"
  else Ret "medium".

Definition estimate_daily_cost (budget_level : value) : res Z :=
  bl <- normalize_budget_level budget_level ;;
  if String.eqb bl "low" then Ret 1500
  else if String.eqb bl "high" then Ret 4000
  else Ret 2500.

(** An attraction as the index stores it: the metadata that
    [_build_vectorstore] attaches to every document, each field with the
    type it is given there. *)
Record Metadata : Type := {
  name : string;
  city : string;
  state : string;
  region : string;
  tags : string;
  best_season : string;
  cost_level : string;
  typical_duration_hours : Z;
  rating : float;
  review_count_lakhs : float
}.

Record Document : Type := {
  page_content : string;
  metadata : Metadata
}.

(** The dictionary [search_attractions] returns for a document: its
    metadata, the ["summary"] key, and the ["score"] key once
    [retrieve_attractions] has set it. *)
Record Attraction : Type := {
  meta : Metadata;
  summary : string;
  score : option float
}.

(** The loop [for interest in interests: if ... in tags: score += 2.0]. *)
Fixpoint interest_loop (tags : string) (interests : list value) (acc : float)
  : res float :=
  match interests with
  | [] => Ret acc
  | interest :: rest =>
      s <- Py.as_str interest ;;
      if Str.contains (Str.strip (Str.lower s)) tags
      then interest_loop tags rest (acc + 2.0)%float
      else interest_loop tags rest acc
  end.

(** On the dictionaries [search_attractions] builds, the tags and the
    cost level are text and the rating and the review count are floats:
    the defaults of [.get], [str(...)] and the guarded [float(...)] leave
    them as they are. *)
Definition score_attraction (attraction : Attraction) (interests : list value)
    (trip_type budget_level : value) : res float :=
  let score := 0.0%float in
  let tags := Str.lower (tags (meta attraction)) in
  bl <- normalize_budget_level budget_level ;;
  score <- interest_loop tags interests score ;;
  tt <- Py.as_str (Py.or trip_type (VStr "")) ;;
  let tt := Str.lower tt in
  let score :=
    if Str.contains "family" tt && Str.contains "nightlife" tags
    then (score - 1.0)%float else score in
  let score :=
    if Str.contains "couple" tt && Str.contains "romantic" tags
    then (score + 1.0)%float else score in
  let cost_level := Str.lower (cost_level (meta attraction)) in
  let score :=
    if String.eqb bl "low" && String.eqb cost_level "low"
    then (score + 1.5)%float
    else if String.eqb bl "high" && String.eqb cost_level "high"
    then (score + 1.5)%float
    else score in
  let rating := rating (meta attraction) in
  let reviews_lakhs := review_count_lakhs (meta attraction) in
  let score := (score + rating * 0.8)%float in
  let score := (score + Py.min5 reviews_lakhs * 0.5)%float in
  Ret score.

(** ** External collaborators *)

Record Env : Type := {
  (** [llm.invoke(prompt).content] for the call number [n] (from 0);
      the call is taken to return. *)
  llm_content : nat -> string -> string;
  (** [json.loads]: [None] when it raises. *)
  json_loads : string -> option value;
  (** [json.dumps(v, indent=2)]. *)
  json_dumps : value -> string;
  (** [str(v)] for floats, lists and dicts. *)
  py_repr : value -> string;
  (** [vectorstore.similarity_search(query, k)]. *)
  similarity_search : string -> Z -> list Document;
  PREFERENCE_EXTRACTION_SYSTEM_PROMPT : string;
  ITINERARY_PLANNER_SYSTEM_PROMPT : string;
  RESPONSE_SUMMARY_SYSTEM_PROMPT : string
}.

(** Code that calls the model: the state is the list of prompts sent so
    far, oldest first. *)
Definition M (A : Type) : Type := list string -> res A * list string.

Definition retM {A} (a : A) : M A := fun t => (Ret a, t).

Definition bindM {A B} (m : M A) (k : A -> M B) : M B :=
  fun t =>
    match m t with
    | (Ret a, t') => k a t'
    | (Raise e, t') => (Raise e, t')
    end.

Definition lift {A} (r : res A) : M A := fun t => (r, t).

Notation "x <~ m ;; k" := (bindM m (fun x => k))
  (at level 61, m at next level, right associativity).

Definition nl : string := String (ascii_of_nat 10) EmptyString.

Section Pipeline.

Variable env : Env.

Definition invoke (prompt : string) : M string :=
  fun t => (Ret (llm_content env (List.length t) prompt), (t ++ [prompt])%list).

(** ** rag_pipeline.py *)

Definition to_attraction (doc : Document) : Attraction :=
  {| meta := metadata doc; summary := page_content doc; score := None |}.

Definition location_match (dest_tokens : list string) (doc : Document)
  : bool :=
  let city := Str.lower (city (metadata doc)) in
  let state := Str.lower (state (metadata doc)) in
  let region := Str.lower (region (metadata doc)) in
  existsb (fun dt => Str.contains dt city || Str.contains dt state
                     || Str.contains dt region) dest_tokens.

Definition search_attractions (destination interests : value) (k : Z)
  : res (list Attraction) :=
  d <- Py.as_str (Py.or destination (VStr "")) ;;
  let destination := Str.strip d in
  let interests := Py.or interests (VList []) in
  joined <- Py.join ", " interests ;;
  let query := "Tourist attractions in " ++ destination
               ++ " for interests: " ++ joined in
  let raw_results := similarity_search env query k in
  let dest_tokens :=
    map (fun d => Str.lower (Str.strip d))
        (filter (fun d => negb (Str.is_empty (Str.strip d)))
                (Str.split "," destination)) in
  let filtered_docs :=
    match dest_tokens with
    | [] => []
    | _ => fold_left (fun acc doc =>
                        if location_match dest_tokens doc
                        then (acc ++ [doc])%list else acc)
                     raw_results []
    end in
  let results :=
    match filtered_docs with
    | [] => raw_results
    | _ => filtered_docs
    end in
  Ret (map to_attraction results).

(** ** agents.py *)

Definition default_preferences : value :=
  VDict [("destination", VStr "Goa");
         ("days", VInt 3);
         ("budget_level", VStr "medium");
         ("trip_type", VStr "friends");
         ("interests", VList [VStr "beach"; VStr "nightlife"])].

Definition extract_preferences (user_input : string) : M value :=
  let prompt := PREFERENCE_EXTRACTION_SYSTEM_PROMPT env ++ nl ++ nl
                ++ "User Input:" ++ nl ++ user_input in
  response <~ invoke prompt ;;
  let data :=
    match json_loads env response with
    | Some data => data
    | None => default_preferences
    end in
  retM data.

(** [a["score"] = s]. *)
Definition set_score (a : Attraction) (s : float) : Attraction :=
  {| meta := meta a; summary := summary a; score := Some s |}.

(** [x["score"]]. *)
Definition get_score (a : Attraction) : res float :=
  match score a with
  | Some s => Ret s
  | None => Raise KeyError
  end.

Fixpoint mapM {A B} (f : A -> res B) (l : list A) : res (list B) :=
  match l with
  | [] => Ret []
  | x :: r => y <- f x ;; ys <- mapM f r ;; Ret (y :: ys)
  end.

(** [l.sort(key=key, reverse=True)]. The keys are computed once, up
    front. The sort is stable and compares keys with [<] only; on keys
    that [<] orders totally its result is the unique stable descending
    arrangement, which insertion from the right computes. *)
Fixpoint insert_desc {A} (x : float * A) (l : list (float * A))
  : list (float * A) :=
  match l with
  | [] => [x]
  | y :: r =>
      if PrimFloat.ltb (fst x) (fst y) then y :: insert_desc x r
      else x :: l
  end.

Definition sort_desc {A} (key : A -> res float) (l : list A)
  : res (list A) :=
  keys <- mapM key l ;;
  Ret (map snd (fold_right insert_desc [] (combine keys l))).

Definition retrieve_attractions (preferences : value) (max_results : Z)
  : res (list Attraction) :=
  destination <- Py.get preferences "destination" (VStr "") ;;
  interests <- Py.get preferences "interests" (VList []) ;;
  let interests :=
    match interests with
    | VList l => l
    | other => [other]
    end in
  raw_results <- search_attractions destination (VList interests)
                                    max_results ;;
  scored <- mapM (fun a =>
                    trip_type <- Py.get preferences "trip_type" (VStr "") ;;
                    budget_level <- Py.get preferences "budget_level"
                                           (VStr "medium") ;;
                    s <- score_attraction a interests trip_type
                                          budget_level ;;
                    Ret (set_score a s))
                 raw_results ;;
  sort_desc get_score scored.

(** [str(v)], as an f-string formats a value. *)
Definition str (v : value) : string :=
  match v with
  | VStr s => s
  | VNone => "None"
  | VBool true => "True"
  | VBool false => "False"
  | VInt z => Str.of_Z z
  | other => py_repr env other
  end.

Definition compact (a : Attraction) : value :=
  VDict [("name", VStr (name (meta a)));
         ("city", VStr (city (meta a)));
         ("state", VStr (state (meta a)));
         ("tags", VStr (tags (meta a)));
         ("typical_duration_hours", VInt (typical_duration_hours (meta a)));
         ("cost_level", VStr (cost_level (meta a)))].

Definition day_entry (a : Attraction) : value :=
  VDict [("name", VStr (name (meta a)));
         ("city", VStr (city (meta a)));
         ("state", VStr (state (meta a)));
         ("typical_duration_hours", VInt (typical_duration_hours (meta a)));
         ("cost_level", VStr (cost_level (meta a)));
         ("notes", VStr "")].

(** The loop [for d in range(1, days + 1)] of the fallback; [ds] is
    what remains of the range. *)
Fixpoint fallback_loop (destination : value) (top_attractions : list Attraction)
    (per_day : nat) (ds : list Z) (idx : nat) (fallback_days : list value)
  : list value :=
  match ds with
  | [] => fallback_days
  | d :: rest =>
      let day_atts := firstn per_day (skipn idx top_attractions) in
      let day_obj :=
        VDict [("day", VInt d);
               ("title", VStr ("Day " ++ Str.of_Z d ++ " in "
                               ++ str destination));
               ("attractions", VList (map day_entry day_atts))] in
      fallback_loop destination top_attractions per_day rest
                    (idx + per_day)%nat (fallback_days ++ [day_obj])%list
  end.

(** [range(1, days + 1)]. *)
Definition range1 (days : Z) : list Z :=
  map Z.of_nat (seq 1 (Z.to_nat days)).

Definition style_per_day (itinerary_style : value) : res Z :=
  let base_per_day := 3 in
  style <- Py.as_str (Py.or itinerary_style (VStr "standard")) ;;
  let style := Str.lower style in
  if Str.contains "relaxed" style then Ret 2
  else if Str.contains "packed" style then Ret 4
  else Ret base_per_day.

Definition plan_itinerary (preferences : value) (attractions : list Attraction)
    (itinerary_style : value) : M value :=
  d <~ lift (Py.get preferences "days" (VInt 3)) ;;
  n <~ lift (Py.int d) ;;
  let days := Z.max n 1 in
  per_day <~ lift (style_per_day itinerary_style) ;;
  let top_attractions :=
    firstn (Z.to_nat (Z.max (days * per_day) (days * 2))) attractions in
  let compact_list := map compact top_attractions in
  destination <~ lift (Py.get preferences "destination" VNone) ;;
  trip_type <~ lift (Py.get preferences "trip_type" VNone) ;;
  budget_level <~ lift (Py.get preferences "budget_level" VNone) ;;
  interests <~ lift (Py.get preferences "interests" VNone) ;;
  let planner_input :=
    VDict [("destination", destination);
           ("days", VInt days);
           ("trip_type", trip_type);
           ("budget_level", budget_level);
           ("interests", interests);
           ("itinerary_style", itinerary_style);
           ("candidate_attractions", VList compact_list)] in
  let prompt := ITINERARY_PLANNER_SYSTEM_PROMPT env ++ nl ++ nl ++ "Data:"
                ++ nl ++ json_dumps env planner_input in
  response <~ invoke prompt ;;
  match json_loads env response with
  | Some itinerary => retM itinerary
  | None =>
      let per_day :=
        Z.to_nat (Z.max 1 (Z.of_nat (List.length top_attractions) / days)) in
      title_dest <~ lift (Py.get preferences "destination" (VStr "")) ;;
      let fallback_days :=
        fallback_loop title_dest top_attractions per_day (range1 days)
                      0%nat [] in
      retM (VDict [("days", VList fallback_days)])
  end.

Definition estimate_cost (preferences itinerary : value) : res value :=
  d <- Py.get preferences "days" (VInt 3) ;;
  n <- Py.int d ;;
  let days := Z.max n 1 in
  budget_level <- Py.get preferences "budget_level" (VStr "medium") ;;
  per_day <- estimate_daily_cost budget_level ;;
  let total := per_day * days in
  Ret (VDict [("budget_level", budget_level);
              ("estimated_per_day", VInt per_day);
              ("estimated_total", VInt total);
              ("currency", VStr "INR")]).

Definition default_summary : value :=
  VDict [("summary",
          VStr "This is a multi-day trip plan generated based on your preferences.");
         ("tips",
          VList [VStr "Carry basic medicines and a water bottle.";
                 VStr "Check local weather before packing."])].

Definition generate_summary_and_tips (preferences itinerary cost_info : value)
  : M value :=
  let data := VDict [("preferences", preferences);
                     ("itinerary", itinerary);
                     ("cost", cost_info)] in
  let prompt := RESPONSE_SUMMARY_SYSTEM_PROMPT env ++ nl ++ nl ++ "Data:"
                ++ nl ++ json_dumps env data in
  response <~ invoke prompt ;;
  retM (match json_loads env response with
        | Some obj => obj
        | None => default_summary
        end).

Record Bundle : Type := {
  b_preferences : value;
  b_attractions : list Attraction;
  b_itinerary : value;
  b_cost : value;
  b_summary : value
}.

(** The block under [# Override from UI] of [run_planning_pipeline]. *)
Definition ui_overrides (preferences explicit_destination explicit_days
                         itinerary_style : value) : res value :=
  preferences <-
    (if Py.truthy explicit_destination
     then Py.setitem preferences "destination" explicit_destination
     else Ret preferences) ;;
  let preferences :=
    if Py.truthy explicit_days
    then try_except (n <- Py.int explicit_days ;;
                     Py.setitem preferences "days" (VInt n))
                    preferences
    else preferences in
  Py.setitem preferences "itinerary_style" itinerary_style.

(** The four-argument [run_planning_pipeline]: the definition that is
    in force, since it rebinds the name of the one-argument one. *)
Definition run_planning_pipeline (user_input : string)
    (explicit_destination explicit_days itinerary_style : value) : M Bundle :=
  preferences <~ extract_preferences user_input ;;
  preferences <~ lift (ui_overrides preferences explicit_destination
                                    explicit_days itinerary_style) ;;
  attractions <~ lift (retrieve_attractions preferences 15) ;;
  itinerary <~ plan_itinerary preferences attractions itinerary_style ;;
  cost_info <~ lift (estimate_cost preferences itinerary) ;;
  summary_info <~ generate_summary_and_tips preferences itinerary cost_info ;;
  retM {| b_preferences := preferences;
          b_attractions := attractions;
          b_itinerary := itinerary;
          b_cost := cost_info;
          b_summary := summary_info |}.

End Pipeline.

(** * Properties *)

(** ** Basic facts about the Python layer *)

Lemma or_str_default (s : string) :
  Py.as_str (Py.or (VStr s) (VStr "")) = Ret s.
Proof. destruct s; reflexivity. Qed.

Lemma lookup_store_same k v d : Py.lookup k (Py.store k v d) = Some v.
Proof.
  induction d as [|[k' v'] d IH]; simpl.
  - now rewrite String.eqb_refl.
  - destruct (String.eqb k k') eqn:E; simpl.
    + now rewrite String.eqb_refl.
    + now rewrite E.
Qed.

Lemma lookup_store_other k k' v d :
  k <> k' -> Py.lookup k (Py.store k' v d) = Py.lookup k d.
Proof.
  intros N. induction d as [|[k0 v0] d IH]; simpl.
  - destruct (String.eqb k k') eqn:E; [apply String.eqb_eq in E; easy | easy].
  - destruct (String.eqb k' k0) eqn:E0; simpl.
    + apply String.eqb_eq in E0; subst k0.
      destruct (String.eqb k k') eqn:E; [apply String.eqb_eq in E; easy | easy].
    + destruct (String.eqb k k0); [easy | apply IH].
Qed.

Lemma normalize_str (s : string) :
  normalize_budget_level (VStr s) =
  Ret (let bl := Str.lower (Str.strip s) in
       if Str.contains "low" bl then "low"
       else if Str.contains "high" bl then "high"
       else "medium").
Proof.
  unfold normalize_budget_level. rewrite or_str_default. simpl bind.
  destruct (Str.contains "low" _); [easy|].
  destruct (Str.contains "high" _); easy.
Qed.

Lemma normalize_range (s r : string) :
  normalize_budget_level (VStr s) = Ret r ->
  r = "low" \/ r = "high" \/ r = "medium".
Proof.
  rewrite normalize_str. cbv zeta.
  destruct (Str.contains "low" _); [intros [= <-]; auto|].
  destruct (Str.contains "high" _); intros [= <-]; auto.
Qed.

(** ** Budget normalisation *)

(** C7, as written: every text whose trimmed, lowercased form contains
    "high" would normalise to "high". It does not when "low" occurs as
    well, since "low" is tested first. *)
Lemma normalize_high_not_always_high :
  ~ (forall s : string,
        Str.contains "high" (Str.lower (Str.strip s)) = true ->
        normalize_budget_level (VStr s) = Ret "high").
Proof.
  intros H. specialize (H "low to high" eq_refl). discriminate H.
Qed.

(** C7, amended: [normalize_budget_level] returns on every text, with
    "low" when the trimmed, lowercased text contains "low", otherwise
    "high" when it contains "high", otherwise "medium" (so for the empty
    text and for "medium"); it is idempotent; and the cost lookup and
    the score both see a budget text only through its normal form. *)
Theorem normalize_budget_level_total_idempotent (s : string) :
  let bl := Str.lower (Str.strip s) in
  let nb := if Str.contains "low" bl then "low"
            else if Str.contains "high" bl then "high"
            else "medium" in
  normalize_budget_level (VStr s) = Ret nb
  /\ normalize_budget_level (VStr nb) = Ret nb
  /\ normalize_budget_level (VStr "") = Ret "medium"
  /\ normalize_budget_level (VStr "medium") = Ret "medium"
  /\ estimate_daily_cost (VStr s) =
     Ret (if String.eqb nb "low" then 1500
          else if String.eqb nb "high" then 4000 else 2500)
  /\ estimate_daily_cost (VStr s) = estimate_daily_cost (VStr nb)
  /\ forall a interests trip_type,
      score_attraction a interests trip_type (VStr s) =
      score_attraction a interests trip_type (VStr nb).
Proof.
  intros bl nb.
  assert (E : normalize_budget_level (VStr s) = Ret nb) by apply normalize_str.
  assert (I : normalize_budget_level (VStr nb) = Ret nb).
  { destruct (normalize_range _ _ E) as [->|[->| ->]]; reflexivity. }
  repeat split; try assumption; try reflexivity.
  - unfold estimate_daily_cost. rewrite E. simpl bind.
    destruct (String.eqb nb "low"); [easy|].
    destruct (String.eqb nb "high"); easy.
  - unfold estimate_daily_cost. now rewrite E, I.
  - intros. unfold score_attraction. now rewrite E, I.
Qed.

(** ** Cost *)

(** C5: for a preference dictionary with day count [n >= 1] and budget
    text [b], [estimate_cost] returns the per-day figure 1500, 4000 or
    2500 according to the normalised budget being "low", "high" or
    anything else, the total [per_day * n] and the currency "INR"; it is
    a pure computation, so lifting it into the pipeline sends no
    prompt. *)
Theorem estimate_cost_per_day_times_days
    (d : list (string * value)) (itinerary : value) (n : Z) (b : string) :
  Py.lookup "days" d = Some (VInt n) ->
  Py.lookup "budget_level" d = Some (VStr b) ->
  1 <= n ->
  exists nb : string,
    normalize_budget_level (VStr b) = Ret nb
    /\ let per_day := if String.eqb nb "low" then 1500
                      else if String.eqb nb "high" then 4000 else 2500 in
       estimate_cost (VDict d) itinerary =
       Ret (VDict [("budget_level", VStr b);
                   ("estimated_per_day", VInt per_day);
                   ("estimated_total", VInt (per_day * n));
                   ("currency", VStr "INR")])
       /\ forall t : list string,
           snd (lift (estimate_cost (VDict d) itinerary) t) = t.
Proof.
  intros Hd Hb Hn.
  destruct (normalize_budget_level (VStr b)) as [nb|e] eqn:E;
    [|rewrite normalize_str in E; discriminate E].
  exists nb. split; [reflexivity|]. cbv zeta. split; [|reflexivity].
  unfold estimate_cost, estimate_daily_cost. cbn [Py.get bind].
  rewrite Hd, Hb. cbn [Py.int bind]. rewrite E. cbn [bind].
  rewrite Z.max_l by lia.
  destruct (String.eqb nb "low"); [reflexivity|].
  destruct (String.eqb nb "high"); reflexivity.
Qed.

(** ** Preference extraction *)

(** The shape C3 names: an object with the five expected keys. *)
Definition expected_shape (v : value) : bool :=
  match v with
  | VDict d =>
      forallb (fun k => match Py.lookup k d with Some _ => true | None => false end)
              ["destination"; "days"; "budget_level"; "trip_type"; "interests"]
  | _ => false
  end.

(** A model that answers [42], which [json.loads] parses to the
    integer 42. *)
Definition env_answer_42 : Env :=
  {| llm_content := fun _ _ => "42";
     json_loads := fun s => if String.eqb s "42" then Some (VInt 42) else None;
     json_dumps := fun _ => "";
     py_repr := fun _ => "";
     similarity_search := fun _ _ => [];
     PREFERENCE_EXTRACTION_SYSTEM_PROMPT := "";
     ITINERARY_PLANNER_SYSTEM_PROMPT := "";
     RESPONSE_SUMMARY_SYSTEM_PROMPT := "" |}.

(** C3, as written: whatever is returned would be an object of the
    expected shape or the default record. A reply that is well-formed
    JSON but not such an object is returned as it is. *)
Lemma extract_preferences_returns_any_json :
  ~ (forall (env : Env) (user_input : string) (t : list string) (v : value),
        fst (extract_preferences env user_input t) = Ret v ->
        expected_shape v = true \/ v = default_preferences).
Proof.
  intros H.
  destruct (H env_answer_42 "a week somewhere" [] (VInt 42) eq_refl)
    as [E|E]; discriminate E.
Qed.

(** C3, amended: [extract_preferences] sends exactly one prompt and
    never raises; it returns whatever value the reply parses to as JSON,
    of any shape, and the fixed default record exactly when parsing the
    reply raises. *)
Theorem extract_preferences_one_call_default_on_parse_error
    (env : Env) (user_input : string) (t : list string) :
  let prompt := PREFERENCE_EXTRACTION_SYSTEM_PROMPT env ++ nl ++ nl
                ++ "User Input:" ++ nl ++ user_input in
  let reply := llm_content env (List.length t) prompt in
  snd (extract_preferences env user_input t) = (t ++ [prompt])%list
  /\ fst (extract_preferences env user_input t) =
     Ret (match json_loads env reply with
          | Some parsed => parsed
          | None =>
              VDict [("destination", VStr "Goa");
                     ("days", VInt 3);
                     ("budget_level", VStr "medium");
                     ("trip_type", VStr "friends");
                     ("interests", VList [VStr "beach"; VStr "nightlife"])]
          end).
Proof.
  cbv zeta. unfold extract_preferences, bindM, invoke, retM. simpl.
  split; [reflexivity|].
  destruct (json_loads env _); reflexivity.
Qed.

(** ** Overrides of the orchestrator *)

(** C6, as written: the day-count override would replace the extracted
    value only when it coerces to a positive integer. A negative
    override replaces it as well. *)
Lemma negative_days_override_is_applied :
  ~ (forall (d d' : list (string * value)) (explicit_days style : value),
        ui_overrides (VDict d) (VStr "") explicit_days style = Ret (VDict d') ->
        Py.lookup "days" d' <> Py.lookup "days" d ->
        exists n : Z, Py.int explicit_days = Ret n /\ 0 < n).
Proof.
  intros H.
  destruct (H [("days", VInt 3)]
              [("days", VInt (-5)); ("itinerary_style", VStr "standard")]
              (VInt (-5)) (VStr "standard") eq_refl)
    as (n & E & Hn).
  - discriminate.
  - injection E as <-. lia.
Qed.

(** C6, amended: on an extracted preference dictionary the override
    block never raises. The day-count override replaces the extracted
    ["days"] exactly when it is truthy and [int] accepts it, with the
    integer [int] returns, whatever its sign; a falsy override or one
    that [int] rejects leaves the extracted value in place. A non-empty
    destination override replaces the extracted destination. When the
    pipeline returns, the attractions in its bundle are those retrieved
    for the overridden preferences. *)
Theorem overrides_applied_before_retrieval
    (env : Env) (user_input explicit_destination : string)
    (explicit_days style : value) (t : list string)
    (d : list (string * value)) :
  fst (extract_preferences env user_input t) = Ret (VDict d) ->
  exists d' : list (string * value),
    ui_overrides (VDict d) (VStr explicit_destination) explicit_days style
    = Ret (VDict d')
    /\ Py.lookup "days" d' =
       (if Py.truthy explicit_days
        then match Py.int explicit_days with
             | Ret n => Some (VInt n)
             | Raise _ => Py.lookup "days" d
             end
        else Py.lookup "days" d)
    /\ Py.lookup "destination" d' =
       (if Str.is_empty explicit_destination
        then Py.lookup "destination" d
        else Some (VStr explicit_destination))
    /\ forall (b : Bundle) (t' : list string),
        run_planning_pipeline env user_input (VStr explicit_destination)
                              explicit_days style t = (Ret b, t') ->
        b_preferences b = VDict d'
        /\ retrieve_attractions env (VDict d') 15 = Ret (b_attractions b).
Proof.
  intros Hx.
  set (d1 := if Str.is_empty explicit_destination then d
             else Py.store "destination" (VStr explicit_destination) d).
  set (d2 := if Py.truthy explicit_days
             then match Py.int explicit_days with
                  | Ret n => Py.store "days" (VInt n) d1
                  | Raise _ => d1
                  end
             else d1).
  assert (U : ui_overrides (VDict d) (VStr explicit_destination)
                           explicit_days style
              = Ret (VDict (Py.store "itinerary_style" style d2))).
  { unfold ui_overrides, d2, d1. simpl Py.truthy at 1.
    destruct (Str.is_empty explicit_destination); simpl;
      destruct (Py.truthy explicit_days); try reflexivity;
      destruct (Py.int explicit_days); reflexivity. }
  exists (Py.store "itinerary_style" style d2).
  split; [exact U|]. split; [|split].
  - rewrite lookup_store_other by discriminate. unfold d2.
    assert (L1 : Py.lookup "days" d1 = Py.lookup "days" d).
    { unfold d1. destruct (Str.is_empty explicit_destination); [reflexivity|].
      apply lookup_store_other. discriminate. }
    destruct (Py.truthy explicit_days); [|exact L1].
    destruct (Py.int explicit_days); [apply lookup_store_same | exact L1].
  - rewrite lookup_store_other by discriminate.
    assert (L2 : Py.lookup "destination" d2 = Py.lookup "destination" d1).
    { unfold d2. destruct (Py.truthy explicit_days); [|reflexivity].
      destruct (Py.int explicit_days); [|reflexivity].
      apply lookup_store_other. discriminate. }
    rewrite L2. unfold d1.
    destruct (Str.is_empty explicit_destination); [reflexivity|].
    apply lookup_store_same.
  - intros b t' R. unfold run_planning_pipeline in R.
    unfold bindM at 1 in R.
    destruct (extract_preferences env user_input t) as [[p|e] t1] eqn:X;
      simpl in Hx; [|discriminate Hx].
    injection Hx as ->.
    unfold bindM at 1 in R. unfold lift at 1 in R. rewrite U in R.
    unfold bindM at 1 in R. unfold lift at 1 in R.
    destruct (retrieve_attractions env _ 15) as [atts|e]; [|discriminate R].
    unfold bindM at 1 in R.
    destruct (plan_itinerary env _ atts style t1) as [[it|e] t2];
      [|discriminate R].
    unfold bindM at 1 in R. unfold lift at 1 in R.
    destruct (estimate_cost _ it) as [c|e]; [|discriminate R].
    unfold bindM at 1 in R.
    destruct (generate_summary_and_tips env _ it c t2) as [[sm|e] t3];
      [|discriminate R].
    unfold retM in R. injection R as <- _. split; reflexivity.
Qed.

(** ** Retrieval with the location filter *)

Lemma strs_map_VStr (l : list string) : Py.strs (map VStr l) = Ret l.
Proof. induction l as [|s l IH]; simpl; [|rewrite IH]; reflexivity. Qed.

Lemma join_or_empty (sep : string) (l : list string) :
  Py.join sep (Py.or (VList (map VStr l)) (VList [])) = Ret (Str.join sep l).
Proof.
  destruct l as [|s l]; [reflexivity|].
  unfold Py.or. cbn [Py.truthy map Py.join]. fold (map VStr l).
  change (VStr s :: map VStr l) with (map VStr (s :: l)).
  now rewrite strs_map_VStr.
Qed.

(** The accumulation loop over the retrieved documents is [filter]. *)
Lemma append_loop_is_filter {A} (p : A -> bool) (l acc : list A) :
  fold_left (fun acc x => if p x then (acc ++ [x])%list else acc) l acc
  = (acc ++ filter p l)%list.
Proof.
  revert acc. induction l as [|x l IH]; intros acc; simpl.
  - now rewrite app_nil_r.
  - rewrite IH. destruct (p x); [|reflexivity].
    now rewrite <- app_assoc.
Qed.

Lemma lower_empty (s : string) : Str.lower s = "" -> s = "".
Proof. destruct s; simpl; [reflexivity | discriminate]. Qed.

(** C1: on a destination text and a list of interest texts,
    [search_attractions] takes the records the similarity search
    returns, cuts the destination at commas into trimmed, lowercased,
    non-empty tokens, and returns, in retrieval order, the records whose
    lowercased city, state or region contains some token; it returns all
    retrieved records instead when no token exists or when no record is
    kept. So the result is non-empty whenever the retrieval is, and a
    retrieved record whose city contains a token is in the result. *)
Theorem search_attractions_filter_then_fallback
    (env : Env) (destination : string) (interests : list string) (k : Z) :
  let dest := Str.strip destination in
  let query := "Tourist attractions in " ++ dest ++ " for interests: "
               ++ Str.join ", " interests in
  let raw := similarity_search env query k in
  let tokens :=
    map (fun piece => Str.lower (Str.strip piece))
        (filter (fun piece => negb (Str.is_empty (Str.strip piece)))
                (Str.split "," dest)) in
  let hit (doc : Document) :=
    existsb (fun tok =>
               Str.contains tok (Str.lower (city (metadata doc)))
               || Str.contains tok (Str.lower (state (metadata doc)))
               || Str.contains tok (Str.lower (region (metadata doc))))
            tokens in
  let kept := filter hit raw in
  let result :=
    match tokens, kept with
    | [], _ => raw
    | _ :: _, [] => raw
    | _ :: _, _ :: _ => kept
    end in
  search_attractions env (VStr destination) (VList (map VStr interests)) k
  = Ret (map (fun doc => {| meta := metadata doc;
                            summary := page_content doc;
                            score := None |}) result)
  /\ Forall (fun tok => tok <> "") tokens
  /\ (raw <> [] -> result <> [])
  /\ (forall (doc : Document) (tok : string),
        In doc raw -> In tok tokens ->
        Str.contains tok (Str.lower (city (metadata doc))) = true ->
        In doc result).
Proof.
  intros dest query raw tokens hit kept result.
  assert (K : kept = filter (location_match tokens) raw) by reflexivity.
  split; [|split; [|split]].
  - unfold search_attractions. rewrite or_str_default. cbn [bind].
    rewrite join_or_empty. cbn [bind]. fold dest. fold query. fold raw.
    fold tokens. rewrite append_loop_is_filter. cbn [app]. rewrite <- K.
    unfold result, to_attraction.
    destruct tokens as [|tok0 toks]; [reflexivity|].
    destruct kept; reflexivity.
  - unfold tokens. apply Forall_forall. intros tok Hin.
    apply in_map_iff in Hin. destruct Hin as (piece & <- & Hp).
    apply filter_In in Hp. destruct Hp as [_ Hne]. intros E.
    apply lower_empty in E. now rewrite E in Hne.
  - intros Hraw. unfold result.
    destruct tokens as [|tok0 toks]; [exact Hraw|].
    destruct kept; [exact Hraw | discriminate].
  - intros doc tok Hdoc Htok Hcity.
    assert (Hk : In doc kept).
    { unfold kept. apply filter_In. split; [exact Hdoc|].
      unfold hit. apply existsb_exists. exists tok. split; [exact Htok|].
      now rewrite Hcity. }
    unfold result. destruct tokens as [|tok0 toks]; [exact Hdoc|].
    destruct kept; [destruct Hk | exact Hk].
Qed.

(** ** The planner and its fallback *)

(** The candidates [plan_itinerary] keeps for [days] days at [per_day]
    attractions a day. *)
Definition truncated (attractions : list Attraction) (days per_day : Z)
  : list Attraction :=
  firstn (Z.to_nat (Z.max (days * per_day) (days * 2))) attractions.

(** Day [i] (from 1) of the fallback over the candidates [c]. *)
Definition chunk {A} (c : list A) (per_day i : nat) : list A :=
  firstn per_day (skipn ((i - 1) * per_day) c).

Definition fallback_day (destination : string) (c : list Attraction)
    (per_day i : nat) : value :=
  VDict [("day", VInt (Z.of_nat i));
         ("title", VStr ("Day " ++ Str.of_Z (Z.of_nat i) ++ " in "
                         ++ destination));
         ("attractions", VList (map day_entry (chunk c per_day i)))].

Definition itinerary_days (itinerary : value) : list value :=
  match itinerary with
  | VDict d => match Py.lookup "days" d with Some (VList l) => l | _ => [] end
  | _ => []
  end.

Definition day_attractions (day : value) : list value :=
  match day with
  | VDict d =>
      match Py.lookup "attractions" d with Some (VList l) => l | _ => [] end
  | _ => []
  end.

Lemma fallback_loop_days (env : Env) (dest : string) (top : list Attraction)
    (pd k s idx : nat) (acc : list value) :
  fallback_loop env (VStr dest) top pd (map Z.of_nat (seq s k)) idx acc
  = (acc ++ map (fun j =>
                   VDict [("day", VInt (Z.of_nat (s + j)));
                          ("title", VStr ("Day " ++ Str.of_Z (Z.of_nat (s + j))
                                          ++ " in " ++ dest));
                          ("attractions",
                           VList (map day_entry
                                      (firstn pd (skipn (idx + j * pd) top))))])
                (seq 0 k))%list.
Proof.
  revert s idx acc. induction k as [|k IH]; intros s idx acc.
  - simpl. now rewrite app_nil_r.
  - cbn [seq map fallback_loop]. rewrite IH. rewrite <- app_assoc.
    f_equal. cbn [app]. rewrite Nat.add_0_r, Nat.add_0_r.
    f_equal. rewrite <- seq_shift, map_map.
    apply map_ext. intros j.
    replace (S s + j)%nat with (s + S j)%nat by lia.
    replace (idx + pd + j * pd)%nat with (idx + S j * pd)%nat by lia.
    reflexivity.
Qed.

Lemma fallback_loop_from_one (env : Env) (dest : string)
    (top : list Attraction) (pd k : nat) :
  fallback_loop env (VStr dest) top pd (range1 (Z.of_nat k)) 0 []
  = map (fallback_day dest top pd) (seq 1 k).
Proof.
  unfold range1. rewrite Nat2Z.id, fallback_loop_days. cbn [app].
  rewrite <- seq_shift, map_map. apply map_ext. intros j.
  unfold fallback_day, chunk.
  replace (S j - 1)%nat with j by lia. reflexivity.
Qed.

Lemma firstn_add {A} (a b : nat) (l : list A) :
  firstn (a + b) l = (firstn a l ++ firstn b (skipn a l))%list.
Proof.
  revert l. induction a as [|a IH]; intros l; [reflexivity|].
  destruct l as [|x l]; simpl.
  - now rewrite firstn_nil.
  - now rewrite IH.
Qed.

(** The chunks of the first [k] days, in order, are a prefix. *)
Lemma concat_chunks {A} (c : list A) (pd k : nat) :
  List.concat (map (chunk c pd) (seq 1 k)) = firstn (k * pd) c.
Proof.
  induction k as [|k IH]; [reflexivity|].
  rewrite seq_S, map_app, concat_app, IH. cbn [map List.concat].
  rewrite app_nil_r. unfold chunk.
  replace (1 + k - 1)%nat with k by lia.
  replace (S k * pd)%nat with (k * pd + pd)%nat by lia.
  now rewrite firstn_add.
Qed.

(** What [plan_itinerary] returns when the reply does not parse. *)
Lemma plan_itinerary_fallback (env : Env) (d : list (string * value))
    (attractions : list Attraction) (style : value) (t : list string)
    (n pd : Z) (dest : string) :
  Py.lookup "days" d = Some (VInt n) ->
  1 <= n ->
  Py.lookup "destination" d = Some (VStr dest) ->
  style_per_day style = Ret pd ->
  (forall prompt, json_loads env (llm_content env (List.length t) prompt) = None) ->
  let c := truncated attractions n pd in
  let per_day := Z.to_nat (Z.max 1 (Z.of_nat (List.length c) / n)) in
  fst (plan_itinerary env (VDict d) attractions style t)
  = Ret (VDict [("days",
                 VList (map (fallback_day dest c per_day)
                            (seq 1 (Z.to_nat n))))]).
Proof.
  intros Hd Hn Hdest Hs Hj c per_day.
  unfold plan_itinerary. cbn [Py.get]. rewrite Hd, Hdest.
  unfold bindM at 1. unfold lift at 1.
  unfold bindM at 1. unfold lift at 1. cbn [Py.int].
  rewrite Z.max_l by lia.
  unfold bindM at 1. unfold lift at 1. rewrite Hs.
  fold (truncated attractions n pd). fold c.
  repeat (unfold bindM at 1; unfold lift at 1).
  unfold invoke. rewrite Hj. unfold retM. cbn [fst].
  fold per_day. unfold bindM. cbn [fst].
  rewrite <- (Z2Nat.id n) at 1 by lia.
  now rewrite fallback_loop_from_one.
Qed.

Lemma day_attractions_fallback_day (dest : string) (c : list Attraction)
    (per_day i : nat) :
  day_attractions (fallback_day dest c per_day i)
  = map day_entry (chunk c per_day i).
Proof. reflexivity. Qed.

Lemma fallback_days_attractions (dest : string) (c : list Attraction)
    (per_day k : nat) :
  List.concat (map day_attractions
                   (map (fallback_day dest c per_day) (seq 1 k)))
  = map day_entry (firstn (k * per_day) c).
Proof.
  rewrite map_map.
  rewrite (map_ext _ (fun i => map day_entry (chunk c per_day i)))
    by (intros; apply day_attractions_fallback_day).
  rewrite <- (map_map (chunk c per_day) (map day_entry)).
  now rewrite <- concat_map, concat_chunks.
Qed.

(** C2: for [n >= 1] days, when the reply of the model does not parse,
    [plan_itinerary] returns the fallback: with [c] the truncated
    candidates and [per_day = max(1, len(c) // n)], exactly the days
    numbered 1 to [n], in order, day [i] titled "Day i in <destination>"
    and holding [c[(i-1)*per_day : i*per_day]], each attraction with its
    name, city, state, typical_duration_hours and cost_level and empty
    notes. The days taken together are a prefix of [c], so nothing is
    reordered or repeated; for 9 candidates and 3 days every day holds 3
    and together they are all of [c]. *)
Theorem fallback_itinerary_consecutive_chunks
    (env : Env) (d : list (string * value)) (attractions : list Attraction)
    (style : value) (t : list string) (n pd : Z) (dest : string) :
  Py.lookup "days" d = Some (VInt n) ->
  1 <= n ->
  Py.lookup "destination" d = Some (VStr dest) ->
  style_per_day style = Ret pd ->
  (forall prompt, json_loads env (llm_content env (List.length t) prompt) = None) ->
  let c := firstn (Z.to_nat (Z.max (n * pd) (n * 2))) attractions in
  let per_day := Z.to_nat (Z.max 1 (Z.of_nat (List.length c) / n)) in
  let day_atts (i : nat) := firstn per_day (skipn ((i - 1) * per_day) c) in
  let entry (a : Attraction) :=
    VDict [("name", VStr (name (meta a)));
           ("city", VStr (city (meta a)));
           ("state", VStr (state (meta a)));
           ("typical_duration_hours", VInt (typical_duration_hours (meta a)));
           ("cost_level", VStr (cost_level (meta a)));
           ("notes", VStr "")] in
  let day (i : nat) :=
    VDict [("day", VInt (Z.of_nat i));
           ("title", VStr ("Day " ++ Str.of_Z (Z.of_nat i) ++ " in " ++ dest));
           ("attractions", VList (map entry (day_atts i)))] in
  fst (plan_itinerary env (VDict d) attractions style t)
  = Ret (VDict [("days", VList (map day (seq 1 (Z.to_nat n))))])
  /\ List.length (map day (seq 1 (Z.to_nat n))) = Z.to_nat n
  /\ List.concat (map day_atts (seq 1 (Z.to_nat n)))
     = firstn (Z.to_nat n * per_day) c
  /\ (List.length c = 9%nat -> n = 3 ->
      List.concat (map day_atts [1; 2; 3]%nat) = c
      /\ Forall (fun i => List.length (day_atts i) = 3%nat) [1; 2; 3]%nat).
Proof.
  intros Hd Hn Hdest Hs Hj c per_day day_atts entry day.
  split; [|split; [|split]].
  - exact (plan_itinerary_fallback env d attractions style t n pd dest
                                   Hd Hn Hdest Hs Hj).
  - now rewrite length_map, length_seq.
  - apply concat_chunks.
  - intros Hc ->.
    assert (P : per_day = 3%nat) by (unfold per_day; now rewrite Hc).
    split.
    + change [1; 2; 3]%nat with (seq 1 3).
      change day_atts with (chunk c per_day).
      rewrite concat_chunks, P. apply firstn_all2. lia.
    + unfold day_atts. rewrite P.
      repeat constructor; rewrite length_firstn, length_skipn, Hc;
        reflexivity.
Qed.

(** C10: in the fallback there are exactly [n] days, also when the
    truncated list [c] is shorter than [n], and then the days after the
    [len(c)]-th are empty; the days cover exactly the first
    [n * max(1, len(c) // n)] candidates, so when [n <= len(c)] and [n]
    does not divide [len(c)] the last [len(c) mod n] candidates are in no
    day. *)
Theorem fallback_itinerary_coverage
    (env : Env) (d : list (string * value)) (attractions : list Attraction)
    (style : value) (t : list string) (n pd : Z) (dest : string) :
  Py.lookup "days" d = Some (VInt n) ->
  1 <= n ->
  Py.lookup "destination" d = Some (VStr dest) ->
  style_per_day style = Ret pd ->
  (forall prompt, json_loads env (llm_content env (List.length t) prompt) = None) ->
  let c := firstn (Z.to_nat (Z.max (n * pd) (n * 2))) attractions in
  let len := Z.of_nat (List.length c) in
  let covered := Z.to_nat (n * Z.max 1 (len / n)) in
  exists itinerary : value,
    fst (plan_itinerary env (VDict d) attractions style t) = Ret itinerary
    /\ List.length (itinerary_days itinerary) = Z.to_nat n
    /\ List.concat (map day_attractions (itinerary_days itinerary))
       = map day_entry (firstn covered c)
    /\ (len < n ->
        forall i : nat, len < Z.of_nat i <= n ->
          option_map day_attractions
                     (nth_error (itinerary_days itinerary) (i - 1))
          = Some [])
    /\ (n <= len -> len mod n <> 0 ->
        covered = Z.to_nat (len - len mod n)
        /\ c = (firstn covered c ++ skipn covered c)%list
        /\ List.length (skipn covered c) = Z.to_nat (len mod n)
        /\ skipn covered c <> []).
Proof.
  intros Hd Hn Hdest Hs Hj c len covered.
  pose proof (plan_itinerary_fallback env d attractions style t n pd dest
                                      Hd Hn Hdest Hs Hj) as F.
  cbv zeta in F. fold (truncated attractions n pd) in c. fold c in F.
  fold len in F.
  set (per_day := Z.to_nat (Z.max 1 (len / n))) in *.
  eexists. split; [exact F|].
  cbn [itinerary_days Py.lookup String.eqb Ascii.eqb Bool.eqb].
  assert (Hcov : covered = (Z.to_nat n * per_day)%nat).
  { unfold covered, per_day. rewrite Z2Nat.inj_mul by lia. reflexivity. }
  split; [now rewrite length_map, length_seq|].
  split; [now rewrite fallback_days_attractions, Hcov|].
  split.
  - intros Hlt i Hi.
    assert (P : per_day = 1%nat).
    { unfold per_day. rewrite Z.div_small by lia. reflexivity. }
    rewrite nth_error_map.
    replace (nth_error (seq 1 (Z.to_nat n)) (i - 1)) with (Some i).
    + cbn [option_map]. rewrite day_attractions_fallback_day.
      unfold chunk. rewrite P, skipn_all2; [now rewrite firstn_nil|].
      unfold len in *. lia.
    + symmetry. rewrite nth_error_seq.
      destruct (Nat.ltb_spec (i - 1) (Z.to_nat n)); [f_equal|]; lia.
  - intros Hle Hmod.
    pose proof (Z.div_mod len n ltac:(lia)) as DM.
    pose proof (Z.mod_pos_bound len n ltac:(lia)) as MB.
    assert (Q : 1 <= len / n) by (apply Z.div_le_lower_bound; lia).
    assert (C : covered = Z.to_nat (len - len mod n)).
    { unfold covered. rewrite Z.max_r by lia. f_equal. lia. }
    split; [exact C|]. split; [now rewrite firstn_skipn|].
    assert (L : List.length (skipn covered c) = Z.to_nat (len mod n)).
    { rewrite length_skipn, C. unfold len in *. lia. }
    split; [exact L|].
    intros E. rewrite E in L. simpl in L. lia.
Qed.

Lemma style_per_day_text (s : string) :
  style_per_day (VStr s)
  = Ret (if Str.contains "relaxed" (Str.lower s) then 2
         else if Str.contains "packed" (Str.lower s) then 4
         else 3).
Proof.
  destruct s as [|ch s]; [reflexivity|].
  unfold style_per_day. cbn [bind Py.or Py.truthy Str.is_empty negb Py.as_str].
  destruct (Str.contains "relaxed" _); [reflexivity|].
  destruct (Str.contains "packed" _); reflexivity.
Qed.

(** C9, as written: every style whose lowercased text contains "packed"
    would give 4 attractions a day. It gives 2 when the text contains
    "relaxed" as well, which is tested first. *)
Lemma packed_style_not_always_four :
  ~ (forall s : string,
        Str.contains "packed" (Str.lower s) = true ->
        style_per_day (VStr s) = Ret 4).
Proof.
  intros H. specialize (H "Relaxed, not packed" eq_refl). discriminate H.
Qed.

(** C9, amended: for [n >= 1] days the attractions-per-day target is 2
    when the lowercased style contains "relaxed", otherwise 4 when it
    contains "packed", otherwise 3, also for an empty or missing style.
    [plan_itinerary] keeps the first [max(n * per_day, n * 2)] ranked
    candidates: it sends one prompt, whose candidate list is made of
    these, and behaves on the full list exactly as on the kept ones. *)
Theorem plan_itinerary_style_and_truncation
    (env : Env) (d : list (string * value)) (attractions : list Attraction)
    (style : option string) (t : list string) (n : Z) :
  Py.lookup "days" d = Some (VInt n) ->
  1 <= n ->
  let style_value := match style with Some s => VStr s | None => VNone end in
  let text := match style with Some s => Str.lower s | None => "" end in
  let per_day := if Str.contains "relaxed" text then 2
                 else if Str.contains "packed" text then 4
                 else 3 in
  let limit := Z.to_nat (Z.max (n * per_day) (n * 2)) in
  let top := firstn limit attractions in
  style_per_day style_value = Ret per_day
  /\ style_per_day (VStr "") = Ret 3
  /\ (List.length top <= limit)%nat
  /\ plan_itinerary env (VDict d) attractions style_value t
     = plan_itinerary env (VDict d) top style_value t
  /\ exists planner_input : list (string * value),
      snd (plan_itinerary env (VDict d) attractions style_value t)
      = (t ++ [(ITINERARY_PLANNER_SYSTEM_PROMPT env ++ nl ++ nl ++ "Data:"
                ++ nl ++ json_dumps env (VDict planner_input))%string])%list
      /\ Py.lookup "candidate_attractions" planner_input
         = Some (VList (map compact top)).
Proof.
  intros Hd Hn style_value text per_day limit top.
  assert (Hs : style_per_day style_value = Ret per_day).
  { unfold style_value, per_day, text. destruct style as [s|];
      [apply style_per_day_text | reflexivity]. }
  split; [exact Hs|]. split; [reflexivity|].
  split; [apply firstn_le_length|].
  split.
  - unfold plan_itinerary. cbn [Py.get]. rewrite Hd.
    unfold bindM, lift. cbn [Py.int]. rewrite Hs, Z.max_l by lia.
    fold limit. fold top.
    assert (E : firstn limit top = top)
      by (unfold top; now rewrite firstn_firstn, Nat.min_id).
    rewrite E. reflexivity.
  - unfold plan_itinerary. cbn [Py.get]. rewrite Hd.
    unfold bindM, lift. cbn [Py.int]. rewrite Hs, Z.max_l by lia.
    fold limit. fold top. unfold invoke, retM.
    eexists. split.
    + destruct (json_loads env _); cbn [snd]; reflexivity.
    + reflexivity.
Qed.

(** ** The score *)

#[local] Open Scope float_scope.

(** The interest loop on a list of texts adds 2.0 once per match. *)
Lemma interest_loop_texts (tg : string) (interests : list string) (acc : float) :
  interest_loop tg (map VStr interests) acc
  = Ret (Nat.iter
           (List.length
              (filter (fun i => Str.contains (Str.strip (Str.lower i)) tg)
                      interests))
           (fun s => s + 2.0) acc).
Proof.
  revert acc. induction interests as [|i interests IH]; intros acc;
    [reflexivity|].
  cbn [map interest_loop Py.as_str bind filter].
  destruct (Str.contains (Str.strip (Str.lower i)) tg).
  - rewrite IH. cbn [List.length]. now rewrite Nat.iter_succ_r.
  - apply IH.
Qed.

(** The additions after the interest loop, from the subtotal [s0]. *)
Definition rest_of_score (a : Attraction) (trip_type budget : string)
    (s0 : float) : float :=
  let tg := Str.lower (tags (meta a)) in
  let tt := Str.lower trip_type in
  let bl := Str.lower (Str.strip budget) in
  let nb := (if Str.contains "low" bl then "low"
             else if Str.contains "high" bl then "high"
             else "medium")%string in
  let cl := Str.lower (cost_level (meta a)) in
  let reviews := review_count_lakhs (meta a) in
  let s1 := if Str.contains "family" tt && Str.contains "nightlife" tg
            then s0 - 1.0 else s0 in
  let s2 := if Str.contains "couple" tt && Str.contains "romantic" tg
            then s1 + 1.0 else s1 in
  let s3 := if String.eqb nb "low" && String.eqb cl "low"
               || String.eqb nb "high" && String.eqb cl "high"
            then s2 + 1.5 else s2 in
  s3 + rating (meta a) * 0.8
  + (if PrimFloat.ltb 5.0 reviews then 5.0 else reviews) * 0.5.

Definition interest_subtotal (a : Attraction) (interests : list string)
  : float :=
  Nat.iter
    (List.length
       (filter (fun i => Str.contains (Str.strip (Str.lower i))
                                      (Str.lower (tags (meta a))))
               interests))
    (fun s => s + 2.0) 0.0.

(** On texts the score never raises. *)
Lemma score_attraction_texts (a : Attraction) (interests : list string)
    (trip_type budget : string) :
  score_attraction a (map VStr interests) (VStr trip_type) (VStr budget)
  = Ret (rest_of_score a trip_type budget (interest_subtotal a interests)).
Proof.
  unfold score_attraction. rewrite normalize_str. cbn [bind].
  rewrite interest_loop_texts. cbn [bind].
  rewrite or_str_default. cbn [bind]. cbv zeta. f_equal.
  unfold rest_of_score, interest_subtotal, Py.min5.
  destruct (String.eqb _ "low" && String.eqb _ "low")%bool; reflexivity.
Qed.

Definition beach_4_5 : Attraction :=
  {| meta := {| name := "Baga Beach"; city := "Goa"; state := "Goa";
                region := "West"; tags := "beach, nightlife";
                best_season := "winter"; cost_level := "low";
                typical_duration_hours := 3;
                rating := 4.5; review_count_lakhs := 1.2 |};
     summary := "";
     score := None |}.

(** C4, as written: one more matching interest would raise the returned
    score by exactly 2.0. With rating 4.5 and 1.2 lakh reviews the score
    is 4.2000000000000002 without the interest "beach" and
    6.1999999999999993 with it: the later additions round. *)
Lemma one_more_interest_not_exactly_two :
  ~ (forall (a : Attraction) (interests : list string) (extra : string)
            (trip_type budget : string) (s s' : float),
        Str.contains (Str.strip (Str.lower extra)) (Str.lower (tags (meta a)))
        = true ->
        score_attraction a (map VStr interests) (VStr trip_type) (VStr budget)
        = Ret s ->
        score_attraction a (map VStr (interests ++ [extra])%list)
                         (VStr trip_type) (VStr budget)
        = Ret s' ->
        PrimFloat.eqb (s' - s) 2.0 = true \/ PrimFloat.eqb s' (s + 2.0) = true).
Proof.
  intros H.
  destruct (H beach_4_5 [] "beach" "friends" "medium"
              4.2000000000000002 6.1999999999999993
              eq_refl eq_refl eq_refl) as [E|E];
    vm_compute in E; discriminate E.
Qed.

(** C4, amended: on texts, [score_attraction] returns the binary64 sum,
    added in this order from 0.0, of: 2.0 for each interest whose
    lowercased, trimmed text occurs in the lowercased tags; -1.0 if the
    lowercased trip type contains "family" and the tags contain
    "nightlife"; +1.0 if it contains "couple" and the tags contain
    "romantic"; +1.5 if the normalised budget and the lowercased cost
    level are both "low" or both "high", and nothing otherwise;
    rating * 0.8; and min(review_count_lakhs, 5) * 0.5, which is 2.5
    whenever the review count exceeds 5. One more matching interest
    raises the interest subtotal by exactly 2.0; the returned score
    follows through the same later additions, each of which rounds. *)
Theorem score_attraction_formula
    (a : Attraction) (interests : list string) (trip_type budget : string) :
  let tg := Str.lower (tags (meta a)) in
  let matches (i : string) := Str.contains (Str.strip (Str.lower i)) tg in
  let subtotal (l : list string) :=
    Nat.iter (List.length (filter matches l)) (fun s => s + 2.0) 0.0 in
  let tt := Str.lower trip_type in
  let bl := Str.lower (Str.strip budget) in
  let nb := (if Str.contains "low" bl then "low"
             else if Str.contains "high" bl then "high"
             else "medium")%string in
  let cl := Str.lower (cost_level (meta a)) in
  let reviews := review_count_lakhs (meta a) in
  let review_part := (if PrimFloat.ltb 5.0 reviews then 5.0 else reviews) * 0.5 in
  let rest (s0 : float) :=
    let s1 := if Str.contains "family" tt && Str.contains "nightlife" tg
              then s0 - 1.0 else s0 in
    let s2 := if Str.contains "couple" tt && Str.contains "romantic" tg
              then s1 + 1.0 else s1 in
    let s3 := if String.eqb nb "low" && String.eqb cl "low"
                 || String.eqb nb "high" && String.eqb cl "high"
              then s2 + 1.5 else s2 in
    s3 + rating (meta a) * 0.8 + review_part in
  score_attraction a (map VStr interests) (VStr trip_type) (VStr budget)
  = Ret (rest (subtotal interests))
  /\ (if PrimFloat.ltb 5.0 reviews
      then review_part = 2.5
      else review_part = reviews * 0.5)
  /\ forall (before after : list string) (extra : string),
      interests = (before ++ after)%list ->
      matches extra = true ->
      subtotal (before ++ extra :: after)%list = subtotal interests + 2.0
      /\ score_attraction a (map VStr (before ++ extra :: after)%list)
                          (VStr trip_type) (VStr budget)
         = Ret (rest (subtotal interests + 2.0)).
Proof.
  intros tg matches subtotal tt bl nb cl reviews review_part rest.
  assert (F : forall l,
             score_attraction a (map VStr l) (VStr trip_type) (VStr budget)
             = Ret (rest (subtotal l)))
    by (intros l; apply score_attraction_texts).
  split; [apply F|]. split.
  - unfold review_part. destruct (PrimFloat.ltb 5.0 reviews); reflexivity.
  - intros before after extra -> Hm.
    assert (S2 : subtotal (before ++ extra :: after)%list
                 = subtotal (before ++ after)%list + 2.0).
    { unfold subtotal. rewrite !filter_app. cbn [filter]. rewrite Hm.
      rewrite !length_app. cbn [List.length].
      now rewrite Nat.add_succ_r. }
    split; [exact S2|]. now rewrite F, S2.
Qed.

(** ** The order of binary64 values *)

#[local] Close Scope float_scope.

Module FloatOrder.

(** A non-NaN value is ranked by its class (from minus infinity to plus
    infinity), then by exponent and mantissa, mirrored for negative
    values. *)
Definition rank (f : spec_float) : Z * Z * Z :=
  match f with
  | S754_zero _ => (0, 0, 0)
  | S754_nan => (0, 0, 0)
  | S754_infinity sg => (if sg then -2 else 2, 0, 0)
  | S754_finite sg m e => if sg then (-1, - e, Z.neg m) else (1, e, Z.pos m)
  end.

Definition lt3 (a b : Z * Z * Z) : Prop :=
  fst (fst a) < fst (fst b)
  \/ fst (fst a) = fst (fst b)
     /\ (snd (fst a) < snd (fst b)
         \/ snd (fst a) = snd (fst b) /\ snd a < snd b).

Definition eq3 (a b : Z * Z * Z) : Prop :=
  fst (fst a) = fst (fst b) /\ snd (fst a) = snd (fst b) /\ snd a = snd b.

Definition is_number (f : spec_float) : Prop := f <> S754_nan.

Lemma compare_rank (f g : spec_float) :
  is_number f -> is_number g ->
  exists c : comparison,
    SFcompare f g = Some c
    /\ (c = Lt <-> lt3 (rank f) (rank g))
    /\ (c = Eq <-> eq3 (rank f) (rank g))
    /\ (c = Gt <-> lt3 (rank g) (rank f)).
Proof.
  intros Hf Hg. unfold is_number in *.
  destruct f as [sf|sf| |sf mf ef]; [| |easy|];
    (destruct g as [sg|sg| |sg mg eg]; [| |easy|]);
    cbn [SFcompare];
    try (destruct sf); try (destruct sg);
    try (eexists; split; [reflexivity|]; unfold lt3, eq3; cbn;
         repeat split; intros; try lia; try discriminate; fail).
  - (* both negative *)
    eexists; split; [reflexivity|]. unfold lt3, eq3. cbn [rank fst snd].
    fold (Pos.compare mf mg).
    destruct (Z.compare_spec ef eg); destruct (Pos.compare_spec mf mg);
      cbn [CompOpp]; repeat split; intros; try lia; try discriminate.
  - (* both positive *)
    eexists; split; [reflexivity|]. unfold lt3, eq3. cbn [rank fst snd].
    fold (Pos.compare mf mg).
    destruct (Z.compare_spec ef eg); destruct (Pos.compare_spec mf mg);
      repeat split; intros; try lia; try discriminate.
Qed.

Definition number (x : float) : Prop := PrimFloat.is_nan x = false.
Definition key (x : float) : Z * Z * Z := rank (Prim2SF x).

Lemma number_spec (x : float) : number x -> is_number (Prim2SF x).
Proof.
  unfold number, PrimFloat.is_nan, is_number. rewrite eqb_spec.
  intros H E. rewrite E in H. discriminate H.
Qed.

Lemma ltb_true (x y : float) :
  PrimFloat.ltb x y = true ->
  number x /\ number y /\ lt3 (key x) (key y).
Proof.
  rewrite ltb_spec. unfold SFltb, number, PrimFloat.is_nan, key.
  rewrite !eqb_spec. unfold SFeqb.
  destruct (Prim2SF x) as [sx|sx| |sx mx ex] eqn:Ex; [| |discriminate|];
    (destruct (Prim2SF y) as [sy|sy| |sy my ey] eqn:Ey;
     [| |destruct sx; discriminate|]);
    intros H;
    (split; [|split]);
    try (cbn; try destruct sx; try destruct sy;
         rewrite ?Z.compare_refl, ?Pos.compare_cont_refl; reflexivity);
    match goal with
    | |- lt3 (rank ?f) (rank ?g) =>
        destruct (compare_rank f g) as (c & E & L & _); [easy|easy|];
        rewrite E in H; apply L; destruct c; easy
    end.
Qed.

Lemma ltb_iff (x y : float) :
  number x -> number y ->
  (PrimFloat.ltb x y = true <-> lt3 (key x) (key y)).
Proof.
  intros Hx Hy. split; [intros H; now apply ltb_true in H|].
  intros H. rewrite ltb_spec. unfold SFltb.
  destruct (compare_rank _ _ (number_spec _ Hx) (number_spec _ Hy))
    as (c & E & L & _).
  rewrite E. apply L in H. now subst c.
Qed.

Lemma leb_iff (x y : float) :
  number x -> number y ->
  (PrimFloat.leb x y = true <-> ~ lt3 (key y) (key x)).
Proof.
  intros Hx Hy. rewrite leb_spec. unfold SFleb.
  destruct (compare_rank _ _ (number_spec _ Hx) (number_spec _ Hy))
    as (c & E & L & Q & G).
  rewrite E. fold (key x) in *. fold (key y) in *.
  unfold lt3, eq3 in *. destruct c; split; intros H; try easy.
  - assert (Eq = Eq) as H0 by reflexivity. apply Q in H0. lia.
  - assert (Lt = Lt) as H0 by reflexivity. apply L in H0. lia.
  - exfalso. apply H. now apply G.
Qed.

Lemma eqb_true (x y : float) :
  PrimFloat.eqb x y = true -> number x /\ number y /\ eq3 (key x) (key y).
Proof.
  intros H.
  assert (Hx : number x).
  { unfold number, PrimFloat.is_nan. rewrite eqb_spec in *. unfold SFeqb in *.
    destruct (Prim2SF x) as [sx|sx| |sx mx ex]; try discriminate H;
      cbn; try destruct sx;
      rewrite ?Z.compare_refl, ?Pos.compare_cont_refl; reflexivity. }
  assert (Hy : number y).
  { unfold number, PrimFloat.is_nan. rewrite eqb_spec in *. unfold SFeqb in *.
    destruct (Prim2SF y) as [sy|sy| |sy my ey];
      try (destruct (Prim2SF x) as [sx|sx| |sx mx ex]; discriminate H);
      cbn; try destruct sy;
      rewrite ?Z.compare_refl, ?Pos.compare_cont_refl; reflexivity. }
  split; [exact Hx|]. split; [exact Hy|].
  rewrite eqb_spec in H. unfold SFeqb in H.
  destruct (compare_rank _ _ (number_spec _ Hx) (number_spec _ Hy))
    as (c & E & _ & Q & _).
  rewrite E in H. apply Q. destruct c; easy.
Qed.

(** Not below means at least, for numbers. *)
Lemma not_ltb_leb (x y : float) :
  number x -> number y -> PrimFloat.ltb x y = false -> PrimFloat.leb y x = true.
Proof.
  intros Hx Hy H. apply leb_iff; [easy|easy|].
  intros L. apply (ltb_iff x y Hx Hy) in L. congruence.
Qed.

Lemma ltb_leb (x y : float) :
  PrimFloat.ltb x y = true -> PrimFloat.leb x y = true.
Proof.
  intros H. destruct (ltb_true _ _ H) as (Hx & Hy & L).
  apply leb_iff; [easy|easy|]. unfold lt3 in *. lia.
Qed.

Lemma leb_trans (x y z : float) :
  number x -> number y -> number z ->
  PrimFloat.leb x y = true -> PrimFloat.leb y z = true ->
  PrimFloat.leb x z = true.
Proof.
  intros Hx Hy Hz A B.
  apply leb_iff in A; [|easy|easy]. apply leb_iff in B; [|easy|easy].
  apply leb_iff; [easy|easy|]. unfold lt3 in *. lia.
Qed.

(** Values equal to a common third one are not strictly ordered. *)
Lemma eqb_not_ltb (x y s : float) :
  PrimFloat.eqb x s = true -> PrimFloat.eqb y s = true ->
  PrimFloat.ltb x y = false.
Proof.
  intros A B. destruct (eqb_true _ _ A) as (Hx & _ & Ex).
  destruct (eqb_true _ _ B) as (Hy & _ & Ey).
  destruct (PrimFloat.ltb x y) eqn:L; [|reflexivity].
  apply ltb_true in L. destruct L as (_ & _ & L).
  unfold lt3, eq3 in *. lia.
Qed.

End FloatOrder.

(** ** Ranking *)

Section DescendingSort.

Context {A : Type}.

Definition key_ge (p q : float * A) : Prop :=
  PrimFloat.leb (fst q) (fst p) = true.

Definition key_is (s : float) (p : float * A) : bool :=
  PrimFloat.eqb (fst p) s.

Lemma insert_desc_perm (x : float * A) (l : list (float * A)) :
  Permutation (insert_desc x l) (x :: l).
Proof.
  induction l as [|y l IH]; cbn [insert_desc]; [reflexivity|].
  destruct (PrimFloat.ltb (fst x) (fst y)); [|reflexivity].
  rewrite IH. apply perm_swap.
Qed.

Lemma sort_pairs_perm (l : list (float * A)) :
  Permutation (fold_right insert_desc [] l) l.
Proof.
  induction l as [|x l IH]; cbn [fold_right]; [reflexivity|].
  rewrite insert_desc_perm. now constructor.
Qed.

Lemma insert_desc_sorted (x : float * A) (l : list (float * A)) :
  Forall (fun p => FloatOrder.number (fst p)) (x :: l) ->
  StronglySorted key_ge l ->
  StronglySorted key_ge (insert_desc x l).
Proof.
  intros N S. induction S as [|y l S IH F]; cbn [insert_desc].
  - repeat constructor.
  - inversion N as [|? ? Nx Nl]; subst. inversion Nl as [|? ? Ny Nr]; subst.
    destruct (PrimFloat.ltb (fst x) (fst y)) eqn:L.
    + constructor; [apply IH; now constructor|].
      rewrite (insert_desc_perm x l). constructor; [|exact F].
      unfold key_ge. now apply FloatOrder.ltb_leb.
    + assert (G : key_ge x y) by (now apply FloatOrder.not_ltb_leb).
      constructor; [now constructor|]. constructor; [exact G|].
      rewrite Forall_forall in *. intros z Hz. unfold key_ge in *.
      apply (FloatOrder.leb_trans _ (fst y)); auto.
Qed.

Lemma sort_pairs_sorted (l : list (float * A)) :
  Forall (fun p => FloatOrder.number (fst p)) l ->
  StronglySorted key_ge (fold_right insert_desc [] l).
Proof.
  induction l as [|x l IH]; intros N; cbn [fold_right]; [constructor|].
  inversion N as [|? ? Nx Nl]; subst.
  apply insert_desc_sorted; [|now apply IH].
  constructor; [exact Nx|]. now rewrite (sort_pairs_perm l).
Qed.

Lemma insert_desc_stable (s : float) (x : float * A) (l : list (float * A)) :
  filter (key_is s) (insert_desc x l) = filter (key_is s) (x :: l).
Proof.
  induction l as [|y l IH]; cbn [insert_desc]; [reflexivity|].
  destruct (PrimFloat.ltb (fst x) (fst y)) eqn:L; [|reflexivity].
  cbn [filter] in *. rewrite IH.
  destruct (key_is s x) eqn:Kx; [|reflexivity].
  destruct (key_is s y) eqn:Ky; [|reflexivity].
  unfold key_is in *.
  rewrite (FloatOrder.eqb_not_ltb _ _ _ Kx Ky) in L. discriminate L.
Qed.

Lemma sort_pairs_stable (s : float) (l : list (float * A)) :
  filter (key_is s) (fold_right insert_desc [] l) = filter (key_is s) l.
Proof.
  induction l as [|x l IH]; cbn [fold_right]; [reflexivity|].
  rewrite insert_desc_stable. cbn [filter]. now rewrite IH.
Qed.

End DescendingSort.

(** The attraction has the score [s], as [==] compares floats. *)
Definition has_score (s : float) (a : Attraction) : bool :=
  match score a with
  | Some x => PrimFloat.eqb x s
  | None => false
  end.

(** [a] is scored at least as high as [b]. *)
Definition score_ge (a b : Attraction) : Prop :=
  match score a, score b with
  | Some x, Some y => PrimFloat.leb y x = true
  | _, _ => False
  end.

Definition keyed (p : float * Attraction) : Prop := score (snd p) = Some (fst p).

Lemma keyed_filter (s : float) (ps : list (float * Attraction)) :
  Forall keyed ps ->
  filter (has_score s) (map snd ps) = map snd (filter (key_is s) ps).
Proof.
  induction 1 as [|p ps Hp _ IH]; [reflexivity|].
  cbn [map filter]. rewrite IH. unfold has_score, key_is.
  rewrite Hp. now destruct (PrimFloat.eqb (fst p) s).
Qed.

Lemma keyed_sorted (ps : list (float * Attraction)) :
  Forall keyed ps -> StronglySorted key_ge ps ->
  StronglySorted score_ge (map snd ps).
Proof.
  intros K S. induction S as [|p ps S IH F]; [constructor|].
  inversion K as [|? ? Kp Kps]; subst. cbn [map].
  constructor; [now apply IH|].
  rewrite Forall_forall in *. intros b Hb.
  apply in_map_iff in Hb. destruct Hb as (q & <- & Hq).
  unfold score_ge. rewrite Kp, (Kps q Hq). exact (F q Hq).
Qed.

Lemma mapM_scores (f : Attraction -> res float) (raw : list Attraction)
    (scores : list float) :
  mapM f raw = Ret scores ->
  mapM (fun a => s <- f a ;; Ret (set_score a s)) raw
  = Ret (map (fun p => set_score (fst p) (snd p)) (combine raw scores))
  /\ List.length scores = List.length raw.
Proof.
  revert scores. induction raw as [|a raw IH]; intros scores H.
  - cbn in H. injection H as <-. split; reflexivity.
  - cbn [mapM] in *. destruct (f a) as [s|e]; [|discriminate H].
    cbn [bind] in *. destruct (mapM f raw) as [ss|e]; [|discriminate H].
    cbn [bind] in H. injection H as <-.
    destruct (IH ss eq_refl) as [E L]. rewrite E. cbn. split; [reflexivity|].
    now rewrite L.
Qed.

Lemma mapM_get_score (raw : list Attraction) (scores : list float) :
  List.length scores = List.length raw ->
  let scored := map (fun p => set_score (fst p) (snd p)) (combine raw scores) in
  mapM get_score scored = Ret scores
  /\ Forall keyed (combine scores scored).
Proof.
  revert scores. induction raw as [|a raw IH]; intros [|s scores] L;
    try discriminate L; cbn zeta.
  - split; [reflexivity | constructor].
  - injection L as L. destruct (IH scores L) as [E K]. cbn zeta in E, K.
    cbn [combine map mapM get_score set_score score fst snd bind].
    rewrite E. split; [reflexivity|]. constructor; [reflexivity | exact K].
Qed.

Lemma mapM_returns {X Y} (f : X -> res Y) (l : list X) :
  (forall x, exists y, f x = Ret y) -> exists ys, mapM f l = Ret ys.
Proof.
  intros H. induction l as [|x l [ys IH]]; [now exists []|].
  destruct (H x) as [y E]. exists (y :: ys). cbn [mapM]. now rewrite E, IH.
Qed.

Lemma search_attractions_returns (env : Env) (destination : string)
    (interests : list string) (k : Z) :
  exists raw,
    search_attractions env (VStr destination) (VList (map VStr interests)) k
    = Ret raw.
Proof.
  unfold search_attractions. rewrite or_str_default. cbn [bind].
  rewrite join_or_empty. cbn [bind]. eexists. reflexivity.
Qed.

(** C8: on a preference dictionary of texts, [retrieve_attractions]
    returns the retrieved attractions, each with the score
    [score_attraction] gives it, rearranged; the scores being numbers
    (no NaN, which [<] does not order), the list is in descending order
    of score and attractions of equal score keep the order they had in
    the retrieval result. *)
Theorem retrieve_attractions_sorted_stable
    (env : Env) (d : list (string * value)) (max_results : Z)
    (destination trip_type budget : string) (interests : list string) :
  Py.lookup "destination" d = Some (VStr destination) ->
  Py.lookup "interests" d = Some (VList (map VStr interests)) ->
  Py.lookup "trip_type" d = Some (VStr trip_type) ->
  Py.lookup "budget_level" d = Some (VStr budget) ->
  exists (raw : list Attraction) (scores : list float) (out : list Attraction),
    search_attractions env (VStr destination) (VList (map VStr interests))
                       max_results = Ret raw
    /\ mapM (fun a => score_attraction a (map VStr interests) (VStr trip_type)
                                       (VStr budget)) raw = Ret scores
    /\ retrieve_attractions env (VDict d) max_results = Ret out
    /\ let scored :=
         map (fun p => {| meta := meta (fst p); summary := summary (fst p);
                          score := Some (snd p) |})
             (combine raw scores) in
       Permutation out scored
       /\ (Forall (fun s => PrimFloat.is_nan s = false) scores ->
           StronglySorted score_ge out
           /\ forall s : float,
               filter (has_score s) out = filter (has_score s) scored).
Proof.
  intros Hdest Hint Htt Hb.
  destruct (search_attractions_returns env destination interests max_results)
    as [raw Hraw].
  destruct (mapM_returns
              (fun a => score_attraction a (map VStr interests)
                                         (VStr trip_type) (VStr budget)) raw)
    as [scores Hsc].
  { intros a. eexists. apply score_attraction_texts. }
  destruct (mapM_scores _ raw scores Hsc) as [Hscored Hlen].
  destruct (mapM_get_score raw scores Hlen) as [Hkeys Hkeyed].
  cbn zeta in Hkeys, Hkeyed.
  set (scored := map (fun p => set_score (fst p) (snd p)) (combine raw scores))
    in *.
  set (sorted := fold_right insert_desc [] (combine scores scored)).
  assert (P : Permutation sorted (combine scores scored))
    by apply sort_pairs_perm.
  assert (Ksorted : Forall keyed sorted).
  { rewrite Forall_forall in *. intros p Hp. apply Hkeyed.
    now apply (Permutation_in _ P). }
  assert (Hsnd : map snd (combine scores scored) = scored).
  { clear - Hlen. assert (L : List.length scores = List.length scored).
    { unfold scored. rewrite length_map, length_combine. lia. }
    clearbody scored. clear Hlen. revert scored L.
    induction scores as [|s scores IH]; intros [|a scored] L;
      try discriminate L; [reflexivity|].
    cbn. f_equal. apply IH. now injection L. }
  exists raw, scores, (map snd sorted).
  split; [exact Hraw|]. split; [exact Hsc|]. split.
  - unfold retrieve_attractions. cbn [Py.get]. rewrite Hdest, Hint.
    cbn [bind]. rewrite Hraw. cbn [bind]. rewrite Htt, Hb.
    cbn [bind]. rewrite Hscored. cbn [bind].
    unfold sort_desc. fold scored. rewrite Hkeys. reflexivity.
  - cbn zeta. fold (set_score). change (map _ (combine raw scores)) with scored.
    split; [|intros N; split].
    + transitivity (map snd (combine scores scored));
        [now apply Permutation_map | now rewrite Hsnd].
    + apply keyed_sorted; [exact Ksorted|].
      apply sort_pairs_sorted.
      assert (Hfst : forall p, In p (combine scores scored) -> In (fst p) scores).
      { intros [s a] Hp. now apply in_combine_l in Hp. }
      rewrite Forall_forall in *. intros p Hp. apply N. now apply Hfst.
    + intros s. rewrite (keyed_filter s sorted Ksorted).
      unfold sorted. rewrite sort_pairs_stable.
      rewrite <- (keyed_filter s _ Hkeyed). now rewrite Hsnd.
Qed.

(** ** Concrete runs *)

(** [json.loads] on the two replies used below: the text [42] is JSON,
    a sentence is not. *)
Definition loads_sample (s : string) : option value :=
  if String.eqb s "42" then Some (VInt 42) else None.

Definition spot (nm town st tg cl : string) (r rv : float) : Metadata :=
  {| name := nm; city := town; state := st; region := "West"; tags := tg;
     best_season := "winter"; cost_level := cl; typical_duration_hours := 3;
     rating := r; review_count_lakhs := rv |}.

Definition sample_docs : list Document :=
  [ {| page_content := "Lively beach with shacks";
       metadata := spot "Baga Beach" "Goa" "Goa" "beach, nightlife" "low"
                        4.5%float 1.2%float |};
    {| page_content := "Arch monument by the sea";
       metadata := spot "Gateway of India" "Mumbai" "Maharashtra" "history"
                        "low" 4.6%float 3.5%float |};
    {| page_content := "Portuguese fort and lighthouse";
       metadata := spot "Fort Aguada" "Candolim" "Goa" "history, beach"
                        "medium" 4.5%float 1.2%float |};
    {| page_content := "Night market";
       metadata := spot "Arpora Market" "Arpora" "Goa" "shopping, nightlife"
                        "medium" 4.5%float 1.2%float |} ].

(** A model whose replies are prose, over an index of four documents. *)
Definition env_prose : Env :=
  {| llm_content := fun _ _ => "Here is a plan for your trip.";
     json_loads := loads_sample;
     json_dumps := fun _ => "{}";
     py_repr := fun _ => "";
     similarity_search := fun _ k => firstn (Z.to_nat k) sample_docs;
     PREFERENCE_EXTRACTION_SYSTEM_PROMPT := "Extract the preferences.";
     ITINERARY_PLANNER_SYSTEM_PROMPT := "Plan the days.";
     RESPONSE_SUMMARY_SYSTEM_PROMPT := "Summarise the trip." |}.

Definition place (nm : string) : Attraction :=
  {| meta := spot nm "Goa" "Goa" "beach" "low" 4.0%float 1.0%float;
     summary := ""; score := Some 5.0%float |}.

Definition nine_places : list Attraction :=
  map place ["a1"; "a2"; "a3"; "a4"; "a5"; "a6"; "a7"; "a8"; "a9"].

Definition goa_for (days : Z) (budget trip_type : string)
  : list (string * value) :=
  [("destination", VStr "Goa"); ("days", VInt days);
   ("budget_level", VStr budget); ("trip_type", VStr trip_type);
   ("interests", VList (map VStr ["beach"; "nightlife"]))].

Definition entry_of (nm : string) : value :=
  VDict [("name", VStr nm); ("city", VStr "Goa"); ("state", VStr "Goa");
         ("typical_duration_hours", VInt 3); ("cost_level", VStr "low");
         ("notes", VStr "")].

(** Five days on a low budget, travelling solo: 1500 a day, 7500 in
    all. *)
Lemma estimate_cost_five_days_low :
  1 <= 5
  /\ estimate_cost (VDict (goa_for 5 "low" "solo")) VNone
     = Ret (VDict [("budget_level", VStr "low");
                   ("estimated_per_day", VInt 1500);
                   ("estimated_total", VInt 7500);
                   ("currency", VStr "INR")]).
Proof.
  split; [lia|].
  destruct (estimate_cost_per_day_times_days
              (goa_for 5 "low" "solo") VNone 5 "low"
              eq_refl eq_refl ltac:(lia)) as (nb & E & H & _).
  vm_compute in E. injection E as <-. exact H.
Defined.

(** Nine candidates over three days: three consecutive ones a day. *)
Lemma fallback_nine_over_three :
  1 <= 3
  /\ fst (plan_itinerary env_prose (VDict (goa_for 3 "medium" "friends"))
                         nine_places (VStr "standard") [])
     = Ret (VDict [("days", VList [
         VDict [("day", VInt 1); ("title", VStr "Day 1 in Goa");
                ("attractions",
                 VList [entry_of "a1"; entry_of "a2"; entry_of "a3"])];
         VDict [("day", VInt 2); ("title", VStr "Day 2 in Goa");
                ("attractions",
                 VList [entry_of "a4"; entry_of "a5"; entry_of "a6"])];
         VDict [("day", VInt 3); ("title", VStr "Day 3 in Goa");
                ("attractions",
                 VList [entry_of "a7"; entry_of "a8"; entry_of "a9"])]])]).
Proof.
  split; [lia|].
  destruct (fallback_itinerary_consecutive_chunks
              env_prose (goa_for 3 "medium" "friends") nine_places
              (VStr "standard") [] 3 3 "Goa"
              eq_refl ltac:(lia) eq_refl eq_refl (fun _ => eq_refl))
    as [E _].
  exact E.
Defined.

(** Seven candidates over three days: two a day, the seventh in no
    day. *)
Lemma fallback_seven_over_three :
  1 <= 3
  /\ exists itinerary : value,
      fst (plan_itinerary env_prose (VDict (goa_for 3 "medium" "friends"))
                          (firstn 7 nine_places) (VStr "standard") [])
      = Ret itinerary
      /\ List.length (itinerary_days itinerary) = 3%nat
      /\ List.concat (map day_attractions (itinerary_days itinerary))
         = map entry_of ["a1"; "a2"; "a3"; "a4"; "a5"; "a6"].
Proof.
  split; [lia|].
  destruct (fallback_itinerary_coverage
              env_prose (goa_for 3 "medium" "friends") (firstn 7 nine_places)
              (VStr "standard") [] 3 3 "Goa"
              eq_refl ltac:(lia) eq_refl eq_refl (fun _ => eq_refl))
    as (itinerary & E & L & C & _).
  exists itinerary. split; [exact E|]. split; [exact L|]. exact C.
Defined.

(** Two packed days keep eight of nine candidates. *)
Lemma packed_two_days_keeps_eight :
  1 <= 2
  /\ style_per_day (VStr "Packed") = Ret 4
  /\ plan_itinerary env_prose (VDict (goa_for 2 "medium" "friends"))
                    nine_places (VStr "Packed") []
     = plan_itinerary env_prose (VDict (goa_for 2 "medium" "friends"))
                      (firstn 8 nine_places) (VStr "Packed") [].
Proof.
  split; [lia|].
  destruct (plan_itinerary_style_and_truncation
              env_prose (goa_for 2 "medium" "friends") nine_places
              (Some "Packed") [] 2 eq_refl ltac:(lia))
    as (S & _ & _ & T & _).
  split; [exact S | exact T].
Defined.

(** A day-count override that is not a number leaves the extracted 3
    days; the destination override is applied. *)
Lemma override_not_a_number_is_ignored :
  fst (extract_preferences env_prose "a few days at the sea" [])
  = Ret default_preferences
  /\ exists d' : list (string * value),
      ui_overrides default_preferences (VStr "Kerala") (VStr "soon")
                   (VStr "relaxed") = Ret (VDict d')
      /\ Py.lookup "days" d' = Some (VInt 3)
      /\ Py.lookup "destination" d' = Some (VStr "Kerala").
Proof.
  split; [reflexivity|].
  destruct (overrides_applied_before_retrieval
              env_prose "a few days at the sea" "Kerala" (VStr "soon")
              (VStr "relaxed") []
              [("destination", VStr "Goa"); ("days", VInt 3);
               ("budget_level", VStr "medium"); ("trip_type", VStr "friends");
               ("interests", VList [VStr "beach"; VStr "nightlife"])]
              eq_refl)
    as (d' & U & D & X & _).
  exists d'. split; [exact U|]. split; [exact D | exact X].
Defined.

(** Goa for friends on a medium budget: the two-interest beach first,
    then the two attractions of equal score in retrieval order. *)
Lemma retrieve_goa_ranked :
  exists out : list Attraction,
    retrieve_attractions env_prose (VDict (goa_for 3 "medium" "friends")) 15
    = Ret out
    /\ map (fun a => name (meta a)) out
       = ["Baga Beach"; "Fort Aguada"; "Arpora Market"]
    /\ StronglySorted score_ge out.
Proof.
  destruct (retrieve_attractions_sorted_stable
              env_prose (goa_for 3 "medium" "friends") 15
              "Goa" "friends" "medium" ["beach"; "nightlife"]
              eq_refl eq_refl eq_refl eq_refl)
    as (raw & scores & out & Hraw & Hsc & Hout & _ & Hsorted).
  exists out. split; [exact Hout|]. split.
  - vm_compute in Hout. injection Hout as <-. reflexivity.
  - apply Hsorted. vm_compute in Hraw. injection Hraw as <-.
    vm_compute in Hsc. injection Hsc as <-.
    repeat constructor.
Defined.

(** * Further properties of the code *)

(** ** utils.py on arbitrary values *)

(** X1: [normalize_budget_level] and [estimate_daily_cost] on any value:
    a falsy value of any type (None, 0, an empty list) counts as
    "medium", 2500 a day; a truthy value that is not text raises
    AttributeError; text is classified by its trimmed, lowercased
    form. *)
Theorem budget_of_any_value (v : value) :
  normalize_budget_level v
  = match v with
    | VStr s =>
        let bl := Str.lower (Str.strip s) in
        Ret (if Str.contains "low" bl then "low"
             else if Str.contains "high" bl then "high" else "medium")
    | _ => if Py.truthy v then Raise AttributeError else Ret "medium"
    end
  /\ estimate_daily_cost v
     = match v with
       | VStr s =>
           let bl := Str.lower (Str.strip s) in
           Ret (if Str.contains "low" bl then 1500
                else if Str.contains "high" bl then 4000 else 2500)
       | _ => if Py.truthy v then Raise AttributeError else Ret 2500
       end.
Proof.
  assert (N : forall w, (forall s, w <> VStr s) ->
                normalize_budget_level w
                = if Py.truthy w then Raise AttributeError else Ret "medium").
  { intros w Hw. unfold normalize_budget_level, Py.or.
    destruct (Py.truthy w) eqn:T; [|reflexivity].
    destruct w; try reflexivity. now destruct (Hw s). }
  destruct v as [|b0|z|f|s|l|d];
    try (match goal with
         | |- normalize_budget_level ?w = _ /\ _ =>
             assert (E : normalize_budget_level w
                         = if Py.truthy w then Raise AttributeError
                           else Ret "medium")
               by (apply N; discriminate);
             unfold estimate_daily_cost; rewrite E;
             split; [reflexivity | destruct (Py.truthy w); reflexivity]
         end; fail).
  split; [apply normalize_str|].
  unfold estimate_daily_cost. rewrite normalize_str. cbv zeta. cbn [bind].
  destruct (Str.contains "low" _); [reflexivity|].
  destruct (Str.contains "high" _); reflexivity.
Qed.

Lemma contains_empty (hay : string) : Str.contains "" hay = true.
Proof. destruct hay; reflexivity. Qed.

Lemma interest_subtotal_insert (a : Attraction) (before after : list string)
    (extra : string) :
  Str.contains (Str.strip (Str.lower extra)) (Str.lower (tags (meta a))) = true ->
  interest_subtotal a (before ++ extra :: after)%list
  = (interest_subtotal a (before ++ after)%list + 2.0)%float.
Proof.
  intros H. unfold interest_subtotal. rewrite !filter_app. cbn [filter].
  rewrite H, !length_app. cbn [List.length]. now rewrite Nat.add_succ_r.
Qed.

(** X2: an interest keyword that is empty or only whitespace is a
    substring of every tag text, so it earns every attraction, even one
    without tags, the 2.0 of a matching interest. *)
Theorem blank_interest_matches_everything
    (a : Attraction) (before after : list string)
    (blank trip_type budget : string) :
  Str.strip (Str.lower blank) = "" ->
  score_attraction a (map VStr (before ++ blank :: after)%list)
                   (VStr trip_type) (VStr budget)
  = Ret (rest_of_score a trip_type budget
           (interest_subtotal a (before ++ after)%list + 2.0)%float).
Proof.
  intros H. rewrite score_attraction_texts. f_equal. f_equal.
  apply interest_subtotal_insert. rewrite H. apply contains_empty.
Qed.

Lemma blank_interest_witness :
  Str.strip (Str.lower "  ") = ""
  /\ score_attraction beach_4_5 (map VStr ["temples"; "  "])
                      (VStr "friends") (VStr "medium")
     = score_attraction beach_4_5 (map VStr ["beach"])
                        (VStr "friends") (VStr "medium").
Proof.
  split; [reflexivity|].
  pose proof (blank_interest_matches_everything
                beach_4_5 ["temples"] [] "  " "friends" "medium" eq_refl)
    as H.
  cbn [app] in H. rewrite H. reflexivity.
Defined.

Lemma filter_length_perm {X} (p : X -> bool) (l1 l2 : list X) :
  Permutation l1 l2 ->
  List.length (filter p l1) = List.length (filter p l2).
Proof.
  induction 1 as [|x l l' _ IH|x y l|l l' l'' _ IH1 _ IH2]; cbn [filter].
  - reflexivity.
  - destruct (p x); cbn [List.length]; now rewrite IH.
  - destruct (p x), (p y); reflexivity.
  - now rewrite IH1.
Qed.

(** X3: the score does not depend on the order in which the interests
    are listed. *)
Theorem score_ignores_interest_order
    (a : Attraction) (interests reordered : list string)
    (trip_type budget : string) :
  Permutation interests reordered ->
  score_attraction a (map VStr interests) (VStr trip_type) (VStr budget)
  = score_attraction a (map VStr reordered) (VStr trip_type) (VStr budget).
Proof.
  intros P. rewrite !score_attraction_texts. f_equal. f_equal.
  unfold interest_subtotal. now rewrite (filter_length_perm _ _ _ P).
Qed.

Lemma score_ignores_interest_order_witness :
  Permutation ["beach"; "food"; "nightlife"] ["nightlife"; "beach"; "food"]
  /\ score_attraction beach_4_5 (map VStr ["beach"; "food"; "nightlife"])
                      (VStr "couple") (VStr "low")
     = score_attraction beach_4_5 (map VStr ["nightlife"; "beach"; "food"])
                        (VStr "couple") (VStr "low").
Proof.
  assert (P : Permutation ["beach"; "food"; "nightlife"]
                          ["nightlife"; "beach"; "food"]).
  { apply Permutation_sym.
    apply (Permutation_cons_app ["beach"; "food"] [] "nightlife").
    rewrite app_nil_r. apply Permutation_refl. }
  split; [exact P|].
  exact (score_ignores_interest_order beach_4_5 _ _ "couple" "low" P).
Defined.

Lemma interest_loop_raises (tg : string) (before : list string) (v : value)
    (after : list value) (acc : float) :
  (forall s, v <> VStr s) ->
  interest_loop tg (map VStr before ++ v :: after)%list acc
  = Raise AttributeError.
Proof.
  intros Hv. revert acc. induction before as [|i before IH]; intros acc.
  - cbn [map app interest_loop].
    destruct v; try reflexivity. now destruct (Hv s).
  - cbn [map app interest_loop Py.as_str bind].
    destruct (Str.contains _ tg); apply IH.
Qed.

(** X4: an interest that is not text (a number, a nested list) makes
    [score_attraction] raise AttributeError, whatever the attraction and
    the trip type: nothing guards the [.lower()] of the loop. *)
Theorem non_text_interest_raises
    (a : Attraction) (before : list string) (v : value) (after : list value)
    (trip_type : value) (budget : string) :
  (forall s, v <> VStr s) ->
  score_attraction a (map VStr before ++ v :: after)%list trip_type
                   (VStr budget)
  = Raise AttributeError.
Proof.
  intros Hv. unfold score_attraction. rewrite normalize_str. cbn [bind].
  now rewrite interest_loop_raises.
Qed.

Lemma non_text_interest_witness :
  (forall s, VInt 7 <> VStr s)
  /\ score_attraction beach_4_5 [VStr "beach"; VInt 7] (VStr "solo")
                      (VStr "low")
     = Raise AttributeError.
Proof.
  split; [discriminate|].
  exact (non_text_interest_raises beach_4_5 ["beach"] (VInt 7) []
                                  (VStr "solo") "low"
                                  ltac:(discriminate)).
Defined.

(** ** Day counts and budgets that are missing or out of range *)

(** X5: [estimate_cost] on any preference dictionary. The day count is
    [int] of the ["days"] entry, 3 when the entry is missing, and is
    raised to 1 when it is smaller; the budget defaults to "medium". An
    entry [int] rejects, or a budget that is neither text nor falsy,
    makes it raise that error. Otherwise the per-day figure is 1500,
    2500 or 4000, the total is the per-day figure times the clamped day
    count, and so never less than one day's cost. *)
Theorem estimate_cost_clamps_and_defaults
    (d : list (string * value)) (itinerary : value) :
  let days_value :=
    match Py.lookup "days" d with Some v => v | None => VInt 3 end in
  let budget :=
    match Py.lookup "budget_level" d with
    | Some v => v
    | None => VStr "medium"
    end in
  match Py.int days_value with
  | Raise e => estimate_cost (VDict d) itinerary = Raise e
  | Ret n =>
      match estimate_daily_cost budget with
      | Raise e => estimate_cost (VDict d) itinerary = Raise e
      | Ret per_day =>
          estimate_cost (VDict d) itinerary
          = Ret (VDict [("budget_level", budget);
                        ("estimated_per_day", VInt per_day);
                        ("estimated_total", VInt (per_day * Z.max n 1));
                        ("currency", VStr "INR")])
          /\ (per_day = 1500 \/ per_day = 2500 \/ per_day = 4000)
          /\ per_day <= per_day * Z.max n 1
      end
  end.
Proof.
  intros days_value budget. unfold estimate_cost. cbn [Py.get bind].
  fold days_value. fold budget.
  destruct (Py.int days_value) as [n|e]; cbn [bind]; [|reflexivity].
  destruct (estimate_daily_cost budget) as [per_day|e] eqn:E; cbn [bind];
    [|reflexivity].
  split; [reflexivity|].
  assert (R : per_day = 1500 \/ per_day = 2500 \/ per_day = 4000).
  { unfold estimate_daily_cost in E.
    destruct (normalize_budget_level budget) as [nb|e]; [|discriminate E].
    cbn [bind] in E.
    destruct (String.eqb nb "low"); [injection E as <-; auto|].
    destruct (String.eqb nb "high"); injection E as <-; auto. }
  split; [exact R|]. nia.
Qed.

(** The prompts [plan_itinerary] adds to the transcript. *)
Lemma plan_itinerary_transcript
    (env : Env) (preferences : value) (attractions : list Attraction)
    (style : value) (t : list string) :
  match plan_itinerary env preferences attractions style t with
  | (Ret _, t') => exists prompt : string, t' = (t ++ [prompt])%list
  | (Raise _, t') => t' = t
  end.
Proof.
  unfold plan_itinerary.
  destruct preferences as [|b|z|f|s|l|d]; try reflexivity.
  cbn [Py.get]. unfold bindM at 1. unfold lift at 1.
  unfold bindM at 1. unfold lift at 1.
  destruct (Py.int _) as [n|e]; [|reflexivity].
  unfold bindM at 1. unfold lift at 1.
  destruct (style_per_day style) as [pd|e]; [|reflexivity].
  unfold bindM, lift, invoke, retM.
  destruct (json_loads env _); eexists; reflexivity.
Qed.

(** X6: [plan_itinerary] sends exactly one prompt whenever it returns,
    and none when it raises: every error it can raise (a day count [int]
    rejects, a style that is not text, preferences that are not a
    dictionary) comes before the model is called. *)
Theorem plan_itinerary_prompt_count
    (env : Env) (preferences : value) (attractions : list Attraction)
    (style : value) (t : list string) :
  match plan_itinerary env preferences attractions style t with
  | (Ret _, t') => exists prompt : string, t' = (t ++ [prompt])%list
  | (Raise _, t') => t' = t
  end.
Proof. apply plan_itinerary_transcript. Qed.

(** The fallback for any integer day count, clamped to at least 1. *)
Lemma plan_itinerary_fallback_clamped (env : Env) (d : list (string * value))
    (attractions : list Attraction) (style : value) (t : list string)
    (n pd : Z) (dest : string) :
  Py.lookup "days" d = Some (VInt n) ->
  Py.lookup "destination" d = Some (VStr dest) ->
  style_per_day style = Ret pd ->
  (forall prompt, json_loads env (llm_content env (List.length t) prompt) = None) ->
  let days := Z.max n 1 in
  let c := truncated attractions days pd in
  let per_day := Z.to_nat (Z.max 1 (Z.of_nat (List.length c) / days)) in
  fst (plan_itinerary env (VDict d) attractions style t)
  = Ret (VDict [("days",
                 VList (map (fallback_day dest c per_day)
                            (seq 1 (Z.to_nat days))))]).
Proof.
  intros Hd Hdest Hs Hj days c per_day.
  unfold plan_itinerary. cbn [Py.get]. rewrite Hd, Hdest.
  unfold bindM at 1. unfold lift at 1.
  unfold bindM at 1. unfold lift at 1. cbn [Py.int]. fold days.
  unfold bindM at 1. unfold lift at 1. rewrite Hs.
  fold (truncated attractions days pd). fold c.
  repeat (unfold bindM at 1; unfold lift at 1).
  unfold invoke. rewrite Hj. unfold retM.
  fold per_day. unfold bindM. cbn [fst].
  rewrite <- (Z2Nat.id days) at 1 by (unfold days; lia).
  now rewrite fallback_loop_from_one.
Qed.

(** X7: a day count of zero or below is planned as one day. When the
    reply does not parse, that single day holds every candidate kept,
    the first [max(per_day, 2)] of the ranked list. *)
Theorem fallback_nonpositive_days_single_day
    (env : Env) (d : list (string * value)) (attractions : list Attraction)
    (style : value) (t : list string) (n pd : Z) (dest : string) :
  Py.lookup "days" d = Some (VInt n) ->
  n <= 0 ->
  Py.lookup "destination" d = Some (VStr dest) ->
  style_per_day style = Ret pd ->
  (forall prompt, json_loads env (llm_content env (List.length t) prompt) = None) ->
  fst (plan_itinerary env (VDict d) attractions style t)
  = Ret (VDict [("days",
                 VList [VDict [("day", VInt 1);
                               ("title", VStr ("Day 1 in " ++ dest));
                               ("attractions",
                                VList (map day_entry
                                           (firstn (Z.to_nat (Z.max pd 2))
                                                   attractions)))]])]).
Proof.
  intros Hd Hn Hdest Hs Hj.
  rewrite (plan_itinerary_fallback_clamped env d attractions style t n pd dest
                                           Hd Hdest Hs Hj).
  rewrite Z.max_r by lia.
  change (Z.to_nat 1) with 1%nat. cbn [seq map].
  unfold fallback_day, chunk. cbn [Nat.sub Nat.mul skipn].
  rewrite Z.div_1_r.
  assert (C : truncated attractions 1 pd
              = firstn (Z.to_nat (Z.max pd 2)) attractions).
  { unfold truncated. now rewrite Z.mul_1_l. }
  rewrite C. set (c := firstn (Z.to_nat (Z.max pd 2)) attractions).
  rewrite (firstn_all2 (n := Z.to_nat (Z.max 1 (Z.of_nat (List.length c)))))
    by lia.
  reflexivity.
Qed.

Lemma fallback_nonpositive_days_witness :
  -2 <= 0
  /\ fst (plan_itinerary env_prose (VDict (goa_for (-2) "medium" "friends"))
                         nine_places (VStr "relaxed") [])
     = Ret (VDict [("days", VList [
         VDict [("day", VInt 1); ("title", VStr "Day 1 in Goa");
                ("attractions", VList [entry_of "a1"; entry_of "a2"])]])]).
Proof.
  split; [lia|].
  exact (fallback_nonpositive_days_single_day
           env_prose (goa_for (-2) "medium" "friends") nine_places
           (VStr "relaxed") [] (-2) 2 "Goa"
           eq_refl ltac:(lia) eq_refl eq_refl (fun _ => eq_refl)).
Defined.

(** ** Retrieval on preferences of any shape *)

(** X8: a single interest that is not a list is wrapped into a
    one-element list, so such preferences are ranked exactly as if the
    interest had been given as [[interest]]. *)
Theorem single_interest_is_wrapped
    (env : Env) (d1 d2 : list (string * value)) (v : value) (k : Z) :
  (forall l, v <> VList l) ->
  Py.lookup "interests" d1 = Some v ->
  Py.lookup "interests" d2 = Some (VList [v]) ->
  Py.lookup "destination" d1 = Py.lookup "destination" d2 ->
  Py.lookup "trip_type" d1 = Py.lookup "trip_type" d2 ->
  Py.lookup "budget_level" d1 = Py.lookup "budget_level" d2 ->
  retrieve_attractions env (VDict d1) k = retrieve_attractions env (VDict d2) k.
Proof.
  intros Hv H1 H2 Hd Ht Hb. unfold retrieve_attractions. cbn [Py.get bind].
  rewrite H1, H2, Hd, Ht, Hb.
  destruct v; try reflexivity. now destruct (Hv l).
Qed.

Lemma single_interest_witness :
  (forall l, VStr "beach" <> VList l)
  /\ retrieve_attractions env_prose
       (VDict [("destination", VStr "Goa"); ("interests", VStr "beach")]) 15
     = retrieve_attractions env_prose
         (VDict [("destination", VStr "Goa");
                 ("interests", VList [VStr "beach"])]) 15.
Proof.
  split; [discriminate|].
  exact (single_interest_is_wrapped
           env_prose
           [("destination", VStr "Goa"); ("interests", VStr "beach")]
           [("destination", VStr "Goa"); ("interests", VList [VStr "beach"])]
           (VStr "beach") 15 ltac:(discriminate)
           eq_refl eq_refl eq_refl eq_refl eq_refl).
Defined.

(** An attraction without its score entry. *)
Definition unscored (a : Attraction) : Attraction :=
  {| meta := meta a; summary := summary a; score := None |}.

Lemma search_attractions_unscored (env : Env) (destination interests : value)
    (k : Z) (raw : list Attraction) :
  search_attractions env destination interests k = Ret raw ->
  map unscored raw = raw.
Proof.
  unfold search_attractions.
  destruct (Py.as_str _); cbn [bind]; [|discriminate].
  destruct (Py.join _ _); cbn [bind]; [|discriminate].
  intros [= <-]. rewrite map_map. reflexivity.
Qed.

Lemma mapM_length {X Y} (f : X -> res Y) (l : list X) (ys : list Y) :
  mapM f l = Ret ys -> List.length ys = List.length l.
Proof.
  revert ys. induction l as [|x l IH]; intros ys H; cbn [mapM] in H.
  - now injection H as <-.
  - destruct (f x); cbn [bind] in H; [|discriminate H].
    destruct (mapM f l) as [zs|]; cbn [bind] in H; [|discriminate H].
    injection H as <-. cbn. now rewrite (IH zs eq_refl).
Qed.

Lemma mapM_set_score (f : Attraction -> res float) (raw scored : list Attraction) :
  mapM (fun a => s <- f a ;; Ret (set_score a s)) raw = Ret scored ->
  map unscored scored = map unscored raw
  /\ Forall (fun a => score a <> None) scored.
Proof.
  revert scored. induction raw as [|a raw IH]; intros scored H; cbn [mapM] in H.
  - injection H as <-. split; [reflexivity | constructor].
  - destruct (f a) as [s|]; cbn [bind] in H; [|discriminate H].
    destruct (mapM _ raw) as [rest|]; cbn [bind] in H; [|discriminate H].
    injection H as <-. destruct (IH rest eq_refl) as [E F].
    split; [cbn [map]; now rewrite E | constructor; [discriminate | exact F]].
Qed.

Lemma sort_desc_perm {X} (key : X -> res float) (l out : list X) :
  sort_desc key l = Ret out -> Permutation out l.
Proof.
  unfold sort_desc. destruct (mapM key l) as [keys|] eqn:K; cbn [bind];
    [|discriminate].
  intros [= <-]. apply mapM_length in K.
  transitivity (map snd (combine keys l)).
  - apply Permutation_map, sort_pairs_perm.
  - clear - K. revert l K. induction keys as [|x keys IH]; intros [|y l] K;
      try discriminate K; [reflexivity|].
    cbn. constructor. apply IH. now injection K.
Qed.

Lemma mapM_set_score_values (g : Attraction -> res float)
    (raw scored : list Attraction) :
  mapM (fun a => s <- g a ;; Ret (set_score a s)) raw = Ret scored ->
  map unscored raw = raw ->
  map unscored scored = raw
  /\ Forall (fun b => exists s, score b = Some s /\ g (unscored b) = Ret s)
            scored.
Proof.
  revert scored. induction raw as [|a raw IH]; intros scored H U;
    cbn [mapM] in H.
  - injection H as <-. split; [reflexivity | constructor].
  - destruct (g a) as [s|] eqn:G; cbn [bind] in H; [|discriminate H].
    destruct (mapM _ raw) as [rest|]; cbn [bind] in H; [|discriminate H].
    injection H as <-. cbn [map] in U. injection U as Ua Ur.
    destruct (IH rest eq_refl Ur) as [E F].
    assert (Us : unscored (set_score a s) = a) by exact Ua.
    split.
    + cbn [map]. now rewrite Us, E.
    + constructor; [|exact F]. exists s. split; [reflexivity|].
      now rewrite Us.
Qed.

(** X9: a list [retrieve_attractions] returns is, up to the score
    entries, a rearrangement of what [search_attractions] returns for
    the destination and the interests of these preferences (a missing
    destination is the empty text, an interest that is not a list is
    wrapped): nothing is added or dropped. Every attraction in it
    carries the score [score_attraction] gives it for these interests,
    the trip type and the budget of the preferences. *)
Theorem retrieved_attractions_are_scored
    (env : Env) (preferences : value) (k : Z) (out : list Attraction) :
  retrieve_attractions env preferences k = Ret out ->
  exists (d : list (string * value)) (raw : list Attraction),
    preferences = VDict d
    /\ let entry (key : string) (default : value) :=
         match Py.lookup key d with Some v => v | None => default end in
       let destination := entry "destination" (VStr "") in
       let given := entry "interests" (VList []) in
       let interests :=
         match given with
         | VList l => l
         | other => [other]
         end in
       search_attractions env destination (VList interests) k = Ret raw
       /\ Permutation (map unscored out) raw
       /\ Forall (fun a =>
                    exists s : float,
                      score a = Some s
                      /\ score_attraction (unscored a) interests
                                          (entry "trip_type" (VStr ""))
                                          (entry "budget_level" (VStr "medium"))
                         = Ret s)
                 out.
Proof.
  intros H. destruct preferences as [| | | | | |d];
    try (unfold retrieve_attractions in H; cbn [Py.get bind] in H;
         discriminate H).
  exists d. unfold retrieve_attractions in H. cbn [Py.get bind] in H.
  match type of H with
  | context [search_attractions env ?dv ?iv k] =>
      destruct (search_attractions env dv iv k) as [raw|] eqn:S
  end; cbn [bind] in H; [|discriminate H].
  match type of H with
  | context [mapM ?g raw] => destruct (mapM g raw) as [scored|] eqn:M
  end; cbn [bind] in H; [|discriminate H].
  match type of M with
  | mapM (fun a => bind (@?g a) _) _ = _ =>
      destruct (mapM_set_score_values g raw scored M
                  (search_attractions_unscored _ _ _ _ _ S)) as [E F]
  end.
  pose proof (sort_desc_perm _ _ _ H) as P.
  exists raw. split; [reflexivity|]. cbv zeta. split; [exact S|]. split.
  - rewrite <- E. now apply Permutation_map.
  - rewrite Forall_forall in *. intros a Ha. apply F.
    now apply (Permutation_in _ P).
Qed.

Lemma retrieved_attractions_witness :
  exists out : list Attraction,
    retrieve_attractions env_prose (VDict (goa_for 3 "medium" "friends")) 15
    = Ret out
    /\ Forall (fun a => score a <> None) out.
Proof.
  destruct (retrieve_attractions env_prose
              (VDict (goa_for 3 "medium" "friends")) 15) as [out|e] eqn:E;
    [|vm_compute in E; discriminate E].
  exists out. split; [reflexivity|].
  destruct (retrieved_attractions_are_scored env_prose _ 15 out E)
    as (d & raw & _ & _ & _ & F).
  rewrite Forall_forall in *. intros a Ha.
  destruct (F a Ha) as (s & Hs & _). now rewrite Hs.
Defined.

(** X10: a destination that is not text. A falsy one (None, 0, an empty
    list) counts as no destination: no location filter, every retrieved
    record is returned. A truthy one, such as a list of city names,
    makes [search_attractions] raise AttributeError. *)
Theorem search_attractions_non_text_destination
    (env : Env) (destination : value) (interests : list string) (k : Z) :
  (forall s, destination <> VStr s) ->
  search_attractions env destination (VList (map VStr interests)) k
  = if Py.truthy destination then Raise AttributeError
    else Ret (map to_attraction
                  (similarity_search env
                     ("Tourist attractions in  for interests: "
                      ++ Str.join ", " interests) k)).
Proof.
  intros Hd. unfold search_attractions, Py.or at 1.
  destruct (Py.truthy destination) eqn:T.
  - destruct destination; try reflexivity. now destruct (Hd s).
  - cbn [Py.as_str bind]. rewrite join_or_empty. cbn [bind].
    change (Str.strip "") with "". cbn [Str.split filter map].
    cbn. reflexivity.
Qed.

Lemma search_attractions_list_destination_witness :
  (forall s, VList [VStr "Goa"; VStr "Mumbai"] <> VStr s)
  /\ search_attractions env_prose (VList [VStr "Goa"; VStr "Mumbai"])
                        (VList (map VStr ["beach"])) 15
     = Raise AttributeError.
Proof.
  split; [discriminate|].
  exact (search_attractions_non_text_destination
           env_prose (VList [VStr "Goa"; VStr "Mumbai"]) ["beach"] 15
           ltac:(discriminate)).
Defined.

(** ** The pipeline as a whole *)

(** What the override block leaves in the dictionary. *)
Lemma ui_overrides_dict (d : list (string * value)) (xd : string)
    (xv style : value) :
  exists d' : list (string * value),
    ui_overrides (VDict d) (VStr xd) xv style = Ret (VDict d')
    /\ Py.lookup "days" d'
       = (if Py.truthy xv
          then match Py.int xv with
               | Ret n => Some (VInt n)
               | Raise _ => Py.lookup "days" d
               end
          else Py.lookup "days" d)
    /\ Py.lookup "destination" d'
       = (if Str.is_empty xd then Py.lookup "destination" d
          else Some (VStr xd))
    /\ forall key : string,
        key <> "days" -> key <> "destination" -> key <> "itinerary_style" ->
        Py.lookup key d' = Py.lookup key d.
Proof.
  set (d1 := if Str.is_empty xd then d
             else Py.store "destination" (VStr xd) d).
  set (d2 := if Py.truthy xv
             then match Py.int xv with
                  | Ret n => Py.store "days" (VInt n) d1
                  | Raise _ => d1
                  end
             else d1).
  exists (Py.store "itinerary_style" style d2).
  assert (L1 : forall key, key <> "destination" ->
                 Py.lookup key d1 = Py.lookup key d).
  { intros key Hk. unfold d1. destruct (Str.is_empty xd); [reflexivity|].
    now apply lookup_store_other. }
  assert (L2 : forall key, key <> "days" ->
                 Py.lookup key d2 = Py.lookup key d1).
  { intros key Hk. unfold d2. destruct (Py.truthy xv); [|reflexivity].
    destruct (Py.int xv); [|reflexivity]. now apply lookup_store_other. }
  split; [|split; [|split]].
  - unfold ui_overrides, d2, d1. cbn [Py.truthy].
    destruct (Str.is_empty xd); cbn;
      destruct (Py.truthy xv); try reflexivity;
      destruct (Py.int xv); reflexivity.
  - rewrite lookup_store_other by discriminate. unfold d2.
    destruct (Py.truthy xv); [|apply L1; discriminate].
    destruct (Py.int xv); [apply lookup_store_same | apply L1; discriminate].
  - rewrite lookup_store_other by discriminate.
    rewrite L2 by discriminate. unfold d1.
    destruct (Str.is_empty xd); [reflexivity | apply lookup_store_same].
  - intros key K1 K2 K3. rewrite lookup_store_other by exact K3.
    rewrite L2 by exact K1. now apply L1.
Qed.

Lemma extract_preferences_run (env : Env) (user_input : string)
    (t : list string) :
  exists (data : value) (prompt : string),
    extract_preferences env user_input t = (Ret data, (t ++ [prompt])%list)
    /\ ((forall p, json_loads env (llm_content env (List.length t) p) = None)
        -> data = default_preferences).
Proof.
  unfold extract_preferences, bindM, invoke, retM.
  eexists. eexists. split; [reflexivity|].
  intros H. now rewrite H.
Qed.

Lemma generate_summary_run (env : Env) (preferences itinerary cost : value)
    (t : list string) :
  exists (obj : value) (prompt : string),
    generate_summary_and_tips env preferences itinerary cost t
    = (Ret obj, (t ++ [prompt])%list)
    /\ ((forall p, json_loads env (llm_content env (List.length t) p) = None)
        -> obj = default_summary).
Proof.
  unfold generate_summary_and_tips, bindM, invoke, retM.
  eexists. eexists. split; [reflexivity|].
  intros H. now rewrite H.
Qed.

(** X11: the pipeline calls the model three times when it returns a
    bundle, and once or twice when it raises: always for the extraction,
    never for the summary of a run that fails. *)
Theorem pipeline_prompt_count
    (env : Env) (user_input : string)
    (explicit_destination explicit_days style : value) (t : list string) :
  match run_planning_pipeline env user_input explicit_destination
                              explicit_days style t with
  | (Ret _, t') =>
      exists p1 p2 p3 : string, t' = (t ++ [p1; p2; p3])%list
  | (Raise _, t') =>
      exists p1 : string,
        t' = (t ++ [p1])%list \/ exists p2 : string, t' = (t ++ [p1; p2])%list
  end.
Proof.
  unfold run_planning_pipeline.
  destruct (extract_preferences_run env user_input t) as (data & p1 & X & _).
  unfold bindM at 1. rewrite X.
  unfold bindM at 1. unfold lift at 1.
  destruct (ui_overrides data _ _ _) as [prefs|e]; [|exists p1; now left].
  unfold bindM at 1. unfold lift at 1.
  destruct (retrieve_attractions env prefs 15) as [atts|e];
    [|exists p1; now left].
  unfold bindM at 1.
  pose proof (plan_itinerary_transcript env prefs atts style (t ++ [p1])%list)
    as P.
  destruct (plan_itinerary env prefs atts style (t ++ [p1])%list)
    as [[it|e] t2]; [|exists p1; left; exact P].
  destruct P as [p2 ->].
  unfold bindM at 1. unfold lift at 1.
  destruct (estimate_cost prefs it) as [c|e].
  - unfold bindM at 1.
    destruct (generate_summary_run env prefs it c ((t ++ [p1]) ++ [p2])%list)
      as (obj & p3 & G & _).
    rewrite G. unfold retM. exists p1, p2, p3.
    now rewrite <- !app_assoc.
  - exists p1. right. exists p2. now rewrite <- app_assoc.
Qed.


(** X12: a reply that is well-formed JSON with a destination that is not
    text (a list of cities, a number) is not recovered: without a
    destination override the pipeline raises AttributeError in the
    retrieval, after the one model call of the extraction. *)
Theorem non_text_destination_stops_pipeline
    (env : Env) (user_input : string) (explicit_days style : value)
    (t : list string) (d : list (string * value)) (v : value) :
  fst (extract_preferences env user_input t) = Ret (VDict d) ->
  Py.lookup "destination" d = Some v ->
  (forall s, v <> VStr s) ->
  Py.truthy v = true ->
  exists prompt : string,
    run_planning_pipeline env user_input (VStr "") explicit_days style t
    = (Raise AttributeError, (t ++ [prompt])%list).
Proof.
  intros Hx Hd Hv Ht.
  destruct (extract_preferences_run env user_input t) as (data & p1 & X & _).
  rewrite X in Hx. cbn [fst] in Hx. injection Hx as ->.
  destruct (ui_overrides_dict d "" explicit_days style)
    as (d' & U & _ & D & _).
  cbn [Str.is_empty] in D. rewrite Hd in D.
  exists p1. unfold run_planning_pipeline.
  unfold bindM at 1. rewrite X.
  unfold bindM at 1. unfold lift at 1. rewrite U.
  unfold bindM at 1. unfold lift at 1.
  assert (R : retrieve_attractions env (VDict d') 15 = Raise AttributeError).
  { unfold retrieve_attractions. cbn [Py.get bind]. rewrite D.
    unfold search_attractions, Py.or at 1. rewrite Ht.
    destruct v; try reflexivity. now destruct (Hv s). }
  now rewrite R.
Qed.

(** A model that answers with an object whose destination is a list. *)
Definition env_two_cities : Env :=
  {| llm_content := fun _ _ => "two cities";
     json_loads := fun _ =>
       Some (VDict [("destination", VList [VStr "Goa"; VStr "Mumbai"]);
                    ("days", VInt 4)]);
     json_dumps := fun _ => "{}";
     py_repr := fun _ => "";
     similarity_search := fun _ k => firstn (Z.to_nat k) sample_docs;
     PREFERENCE_EXTRACTION_SYSTEM_PROMPT := "Extract the preferences.";
     ITINERARY_PLANNER_SYSTEM_PROMPT := "Plan the days.";
     RESPONSE_SUMMARY_SYSTEM_PROMPT := "Summarise the trip." |}.

Lemma non_text_destination_witness :
  Py.truthy (VList [VStr "Goa"; VStr "Mumbai"]) = true
  /\ fst (run_planning_pipeline env_two_cities "Goa and Mumbai" (VStr "")
                                (VInt 4) (VStr "standard") [])
     = Raise AttributeError.
Proof.
  split; [reflexivity|].
  destruct (non_text_destination_stops_pipeline
              env_two_cities "Goa and Mumbai" (VInt 4) (VStr "standard") []
              [("destination", VList [VStr "Goa"; VStr "Mumbai"]);
               ("days", VInt 4)]
              (VList [VStr "Goa"; VStr "Mumbai"])
              eq_refl eq_refl ltac:(discriminate) eq_refl) as [p E].
  now rewrite E.
Defined.



(** ** Ingestion: convert_csv.py and the rows of the index *)

(** [float(z)] for an integer: correctly rounded, OverflowError beyond
    the binary64 range. *)
Definition float_of_Z (z : Z) : res float :=
  let f := SF2Prim (binary_normalize prec emax z 0 false) in
  if PrimFloat.is_infinity f then Raise OverflowError else Ret f.

Section Ingestion.

(** [float(s)] for a text that is not blank: [None] when it raises. *)
Variable float_of_text : string -> option float.

(** [float(v)]. *)
Definition py_float (v : value) : res float :=
  match v with
  | VFloat f => Ret f
  | VInt z => float_of_Z z
  | VBool b => Ret (if b then 1.0 else 0.0)%float
  | VStr s =>
      if Str.is_empty (Str.strip s) then Raise ValueError
      else match float_of_text s with
           | Some f => Ret f
           | None => Raise ValueError
           end
  | VNone | VList _ | VDict _ => Raise TypeError
  end.


Variable env : Env.

(** [row.get(key, default)] on a row of the data frame, given as the
    dictionary of its cells after [fillna]. *)
Definition cell (row : list (string * value)) (key : string) (default : value)
  : value :=
  match Py.lookup key row with
  | Some v => v
  | None => default
  end.

(** The body of the loop of [_build_vectorstore]: the document built
    for one row. *)
Definition row_document (row : list (string * value)) : Document :=
  let description := str env (cell row "description" (VStr "")) in
  {| page_content := description;
     metadata :=
       {| name := str env (cell row "name" (VStr ""));
          city := str env (cell row "city" (VStr ""));
          state := str env (cell row "state" (VStr ""));
          region := str env (cell row "region" (VStr ""));
          tags := str env (cell row "tags" (VStr ""));
          best_season := str env (cell row "best_season" (VStr ""));
          cost_level :=
            Str.lower (str env (cell row "cost_level" (VStr "medium")));
          typical_duration_hours :=
            try_except (Py.int (cell row "typical_duration_hours" (VInt 3))) 3;
          rating :=
            try_except (py_float (cell row "rating" (VFloat 0.0))) 0.0%float;
          review_count_lakhs :=
            try_except (py_float (cell row "review_count_lakhs" (VFloat 0.0)))
                       0.0%float |} |}.

End Ingestion.





Lemma lower_char_idempotent (c : ascii) :
  Str.lower_char (Str.lower_char c) = Str.lower_char c.
Proof.
  destruct c as [[] [] [] [] [] [] [] []]; vm_compute; reflexivity.
Qed.

Lemma lower_idempotent (s : string) : Str.lower (Str.lower s) = Str.lower s.
Proof.
  induction s as [|c s IH]; [reflexivity|].
  cbn [Str.lower]. now rewrite lower_char_idempotent, IH.
Qed.

Lemma strip_blank (s : string) :
  Str.strip s = "" -> Str.is_empty (Str.strip s) = true.
Proof. now intros ->. Qed.

Fixpoint all_space (s : string) : bool :=
  match s with
  | EmptyString => true
  | String c r => Str.is_space c && all_space r
  end.

Lemma rstrip_empty_all_space (s : string) :
  Str.rstrip s = "" -> all_space s = true.
Proof.
  induction s as [|c s IH]; [reflexivity|]. cbn [Str.rstrip all_space].
  destruct (Str.rstrip s); [|discriminate].
  destruct (Str.is_space c); [intros _; now apply IH | discriminate].
Qed.

Lemma lstrip_all_space (s : string) :
  all_space (Str.lstrip s) = true -> all_space s = true.
Proof.
  induction s as [|c s IH]; [reflexivity|]. cbn [Str.lstrip all_space].
  destruct (Str.is_space c) eqn:E; [exact IH|].
  cbn [all_space]. now rewrite E.
Qed.

Lemma all_space_lstrip_padding (s : string) :
  all_space s = true -> all_space (Py.lstrip_padding s) = true.
Proof.
  induction s as [|c s IH]; [reflexivity|]. cbn [Py.lstrip_padding].
  destruct (Py.is_padding c); [|easy].
  cbn [all_space]. intros H. apply andb_prop in H. now apply IH.
Qed.

Lemma all_space_rstrip_padding (s : string) :
  all_space s = true -> all_space (Py.rstrip_padding s) = true.
Proof.
  induction s as [|c s IH]; [reflexivity|].
  cbn [Py.rstrip_padding all_space]. intros H. apply andb_prop in H.
  destruct H as [Hc Hs]. specialize (IH Hs).
  destruct (Py.rstrip_padding s).
  - destruct (Py.is_padding c); [reflexivity|]. cbn [all_space].
    now rewrite Hc.
  - cbn [all_space] in *. now rewrite Hc.
Qed.

Lemma space_starts_no_literal (c : ascii) (r : string) :
  Str.is_space c = true ->
  match String c r with
  | String "-" r' => option_map Z.opp (Py.digits r' None false)
  | String "+" r' => Py.digits r' None false
  | _ => Py.digits (String c r) None false
  end = None.
Proof.
  destruct c as [[] [] [] [] [] [] [] []]; intros H;
    try discriminate H; reflexivity.
Qed.

(** A text of white space only is no integer literal. *)
Lemma int_of_blank (s : string) :
  Str.strip s = "" -> Py.int_of_str s = Raise ValueError.
Proof.
  intros B. unfold Str.strip in B.
  apply rstrip_empty_all_space, lstrip_all_space in B.
  apply all_space_lstrip_padding, all_space_rstrip_padding in B.
  unfold Py.int_of_str.
  destruct (Py.rstrip_padding (Py.lstrip_padding s)) as [|c r].
  - reflexivity.
  - cbn [all_space] in B. apply andb_prop in B. destruct B as [Hc _].
    rewrite (space_starts_no_literal c r Hc).
    now destruct (4300 <? _).
Qed.

(** X15: the document built for a row. The stored cost level is
    lowercase, so lowercasing it again when scoring changes nothing; a
    missing cost-level column gives "medium", a blank cell the empty
    text. A duration, rating or review count that is missing or blank
    gives 3, 0.0 and 0.0. *)
Theorem row_document_defaults
    (float_of_text : string -> option float) (env : Env)
    (row : list (string * value)) :
  let m := metadata (row_document float_of_text env row) in
  let blank (key : string) :=
    match Py.lookup key row with
    | None => True
    | Some (VStr s) => Str.strip s = ""
    | Some _ => False
    end in
  Str.lower (cost_level m) = cost_level m
  /\ (Py.lookup "cost_level" row = None -> cost_level m = "medium")
  /\ (forall s, Py.lookup "cost_level" row = Some (VStr s) ->
      cost_level m = Str.lower s)
  /\ (blank "typical_duration_hours" -> typical_duration_hours m = 3)
  /\ (blank "rating" -> rating m = 0.0%float)
  /\ (blank "review_count_lakhs" -> review_count_lakhs m = 0.0%float).
Proof.
  cbv zeta. unfold row_document, cell.
  cbn [metadata cost_level typical_duration_hours rating review_count_lakhs].
  split; [apply lower_idempotent|].
  split; [now intros ->|]. split; [now intros s ->|].
  split; [|split].
  - destruct (Py.lookup "typical_duration_hours" row) as [[]|];
      try easy. intros B. cbn [Py.int]. now rewrite (int_of_blank _ B).
  - destruct (Py.lookup "rating" row) as [[]|]; try easy.
    intros B. cbn [py_float]. now rewrite (strip_blank _ B).
  - destruct (Py.lookup "review_count_lakhs" row) as [[]|]; try easy.
    intros B. cbn [py_float]. now rewrite (strip_blank _ B).
Qed.

(** ** app.py: what the page derives from a bundle *)

Definition normalize_budget (budget_level : value) : res string :=
  s <- Py.as_str (Py.or budget_level (VStr "")) ;;
  let b := Str.lower (Str.strip s) in
  if Str.contains "low" b then Ret "low"
  else if Str.contains "high" b then Ret "high"
  else Ret "medium".

Definition suggest_hotels (city budget_level : value) : res (list string) :=
  c <- Py.as_str (Py.or city (VStr "")) ;;
  let city_l := Str.lower c in
  b <- normalize_budget budget_level ;;
  let base_low := ["OYO Rooms"; "Zostel Hostel"; "Budget Inn Lodge"] in
  let base_med := ["Treebo Trend Hotel"; "FabHotel Business Stay";
                   "City Comfort Residency"] in
  let base_high := ["Taj Hotel & Convention"; "ITC Grand"; "The Oberoi"] in
  let hotels :=
    if String.eqb b "low" then base_low
    else if String.eqb b "high" then base_high
    else base_med in
  let hotels :=
    if Str.contains "goa" city_l then
      ["Beachside Resort (Calangute)"; "Goa Comfort Stay";
       "Shoreline Guest House"]
    else if Str.contains "mumbai" city_l then
      ["Colaba Business Hotel"; "Fort Heritage Inn";
       "Marine Drive Residency"]
    else if Str.contains "jaipur" city_l then
      ["Pink City Palace Hotel"; "Hawa Mahal View Inn";
       "Jaipur Heritage Haveli"]
    else if Str.contains "delhi" city_l then
      ["Connaught Place Residency"; "Karol Bagh Comfort Hotel";
       "Delhi Business Inn"]
    else hotels in
  Ret hotels.

(** [for x in v]. *)
Definition py_iter (v : value) : res (list value) :=
  match v with
  | VList l => Ret l
  | VStr s => Ret (map VStr (Py.chars s))
  | VDict d => Ret (map (fun kv => VStr (fst kv)) d)
  | VNone | VBool _ | VInt _ | VFloat _ => Raise TypeError
  end.

(** [seen.setdefault(key, []).append(item)]. *)
Fixpoint setdefault_append (key : string) (item : value)
    (seen : list (string * list value)) : list (string * list value) :=
  match seen with
  | [] => [(key, [item])]
  | (k, items) :: rest =>
      if String.eqb key k then (k, (items ++ [item])%list) :: rest
      else (k, items) :: setdefault_append key item rest
  end.

Fixpoint foldM {S X} (f : S -> X -> res S) (l : list X) (s : S) : res S :=
  match l with
  | [] => Ret s
  | x :: rest => s' <- f s x ;; foldM f rest s'
  end.

Definition GENERIC_SEASON_NOTE : string :=
  "Most sights in this itinerary are fine year-round, but avoid peak summer "
  ++ "afternoons for outdoor sightseeing in India and stay hydrated.".

Section Page.

Variable env : Env.

Definition note_attraction (seasons_seen : list (string * list value))
    (att : value) : res (list (string * list value)) :=
  b <- Py.get att "best_season" (VStr "") ;;
  let best := Str.strip (str env b) in
  if negb (Str.is_empty best) then
    nm <- Py.get att "name" (VStr "This place") ;;
    Ret (setdefault_append best nm seasons_seen)
  else Ret seasons_seen.

Definition note_day (seasons_seen : list (string * list value)) (day : value)
  : res (list (string * list value)) :=
  atts <- Py.get day "attractions" (VList []) ;;
  atts <- py_iter atts ;;
  foldM note_attraction atts seasons_seen.

Definition build_season_notes (itinerary_days : value) : res (list string) :=
  days <- py_iter itinerary_days ;;
  seasons_seen <- foldM note_day days [] ;;
  notes <- mapM (fun sp =>
                   place_list <- Py.join ", " (VList (firstn 3 (snd sp))) ;;
                   Ret (place_list ++ " are best visited in **" ++ fst sp
                        ++ "**."))
                seasons_seen ;;
  let notes :=
    match notes with
    | [] => [GENERIC_SEASON_NOTE]
    | _ => notes
    end in
  Ret (firstn 5 notes).

End Page.

(** X16: [suggest_hotels] on a city text and a budget text always gives
    three names. When the lowercased city contains "goa", "mumbai",
    "jaipur" or "delhi" the budget plays no role; otherwise the names
    depend on the budget only through the normalisation that
    [utils.normalize_budget_level] computes as well. *)
Theorem suggest_hotels_three_by_city_then_budget (city budget : string) :
  let city_l := Str.lower city in
  let known := Str.contains "goa" city_l || Str.contains "mumbai" city_l
               || Str.contains "jaipur" city_l || Str.contains "delhi" city_l in
  exists hotels : list string,
    suggest_hotels (VStr city) (VStr budget) = Ret hotels
    /\ List.length hotels = 3%nat
    /\ normalize_budget (VStr budget) = normalize_budget_level (VStr budget)
    /\ if known
       then forall other : string,
           suggest_hotels (VStr city) (VStr other) = Ret hotels
       else forall other : string,
           normalize_budget_level (VStr other)
           = normalize_budget_level (VStr budget) ->
           suggest_hotels (VStr city) (VStr other) = Ret hotels.
Proof.
  cbv zeta.
  assert (N : forall b, exists nb, normalize_budget (VStr b) = Ret nb).
  { intros b. change (normalize_budget (VStr b))
      with (normalize_budget_level (VStr b)).
    rewrite normalize_str. eexists. reflexivity. }
  unfold suggest_hotels. rewrite or_str_default. cbn [bind].
  destruct (N budget) as [nb E]. rewrite E. cbn [bind]. cbv zeta.
  eexists. split; [reflexivity|]. split; [|split; [now rewrite <- E|]].
  - destruct (Str.contains "goa" _); [reflexivity|].
    destruct (Str.contains "mumbai" _); [reflexivity|].
    destruct (Str.contains "jaipur" _); [reflexivity|].
    destruct (Str.contains "delhi" _); [reflexivity|].
    destruct (String.eqb nb "low"); [reflexivity|].
    destruct (String.eqb nb "high"); reflexivity.
  - destruct (Str.contains "goa" _);
      [intros other; destruct (N other) as [nb' ->]; reflexivity|].
    destruct (Str.contains "mumbai" _);
      [intros other; destruct (N other) as [nb' ->]; reflexivity|].
    destruct (Str.contains "jaipur" _);
      [intros other; destruct (N other) as [nb' ->]; reflexivity|].
    destruct (Str.contains "delhi" _);
      [intros other; destruct (N other) as [nb' ->]; reflexivity|].
    cbn [orb]. intros other H.
    change (normalize_budget_level (VStr other))
      with (normalize_budget (VStr other)) in H.
    change (normalize_budget_level (VStr budget))
      with (normalize_budget (VStr budget)) in H.
    rewrite H, E. reflexivity.
Qed.

Lemma mapM_length_le5 (notes : list string) :
  (1 <= List.length (firstn 5 match notes with
                              | [] => [GENERIC_SEASON_NOTE]
                              | _ => notes
                              end) <= 5)%nat.
Proof.
  rewrite length_firstn. destruct notes; cbn [List.length]; lia.
Qed.

(** X17: [build_season_notes] returns at least one note and at most
    five, whatever itinerary it is given, unless it raises. *)
Theorem season_notes_between_one_and_five (env : Env) (itinerary_days : value) :
  match build_season_notes env itinerary_days with
  | Ret notes => (1 <= List.length notes <= 5)%nat
  | Raise _ => True
  end.
Proof.
  unfold build_season_notes.
  destruct (py_iter itinerary_days) as [days|]; cbn [bind]; [|exact I].
  destruct (foldM _ days []) as [seen|]; cbn [bind]; [|exact I].
  destruct (mapM _ seen) as [notes|]; cbn [bind]; [|exact I].
  apply mapM_length_le5.
Qed.

Lemma note_fallback_entries (env : Env) (atts : list Attraction)
    (seen : list (string * list value)) :
  foldM (note_attraction env) (map day_entry atts) seen = Ret seen.
Proof.
  induction atts as [|a atts IH]; [reflexivity|].
  cbn [map foldM]. unfold note_attraction at 1, day_entry at 1.
  cbn. exact IH.
Qed.

Lemma note_fallback_days (env : Env) (dest : string) (c : list Attraction)
    (per_day : nat) (ns : list nat) (seen : list (string * list value)) :
  foldM (note_day env) (map (fallback_day dest c per_day) ns) seen = Ret seen.
Proof.
  induction ns as [|i ns IH]; [reflexivity|].
  cbn [map foldM]. unfold note_day at 1, fallback_day at 1.
  cbn [Py.get Py.lookup String.eqb Ascii.eqb Bool.eqb bind py_iter].
  rewrite note_fallback_entries. cbn [bind]. exact IH.
Qed.

(** X18: the attractions of a fallback itinerary carry no season, so the
    season notes of such an itinerary are always the one generic
    note. *)
Theorem season_notes_of_fallback_are_generic
    (env : Env) (dest : string) (c : list Attraction) (per_day days : nat) :
  build_season_notes env
    (VList (map (fallback_day dest c per_day) (seq 1 days)))
  = Ret [GENERIC_SEASON_NOTE].
Proof.
  unfold build_season_notes. cbn [py_iter bind].
  rewrite note_fallback_days. reflexivity.
Qed.

(** ** Replies that parse but are not what the prompts ask for *)

(** X19: a reply to the extraction that is JSON but not an object (a
    number, a list, a text) is returned by [extract_preferences] and
    then stops the pipeline: storing the itinerary style in it raises
    TypeError, whatever the overrides, after the one model call. *)
Theorem non_object_reply_stops_pipeline
    (env : Env) (user_input : string)
    (explicit_destination explicit_days style : value)
    (t : list string) (v : value) :
  fst (extract_preferences env user_input t) = Ret v ->
  (forall d, v <> VDict d) ->
  exists prompt : string,
    run_planning_pipeline env user_input explicit_destination explicit_days
                          style t
    = (Raise TypeError, (t ++ [prompt])%list).
Proof.
  intros Hx Hv.
  destruct (extract_preferences_run env user_input t) as (data & p1 & X & _).
  rewrite X in Hx. cbn [fst] in Hx. injection Hx as ->.
  assert (S : forall k w, Py.setitem v k w = Raise TypeError).
  { intros k w. destruct v; try reflexivity. now destruct (Hv d). }
  assert (U : ui_overrides v explicit_destination explicit_days style
              = Raise TypeError).
  { unfold ui_overrides.
    destruct (Py.truthy explicit_destination); [now rewrite S|].
    cbn [bind]. destruct (Py.truthy explicit_days); [|apply S].
    destruct (Py.int explicit_days); cbn [bind try_except];
      rewrite ?S; cbn [try_except]; rewrite ?S; reflexivity. }
  exists p1. unfold run_planning_pipeline.
  unfold bindM at 1. rewrite X.
  unfold bindM at 1. unfold lift at 1. now rewrite U.
Qed.

Lemma non_object_reply_witness :
  fst (extract_preferences env_answer_42 "a week somewhere" []) = Ret (VInt 42)
  /\ fst (run_planning_pipeline env_answer_42 "a week somewhere"
                                (VStr "Goa") (VInt 3) (VStr "standard") [])
     = Raise TypeError.
Proof.
  split; [reflexivity|].
  destruct (non_object_reply_stops_pipeline
              env_answer_42 "a week somewhere" (VStr "Goa") (VInt 3)
              (VStr "standard") [] (VInt 42) eq_refl ltac:(discriminate))
    as [p E].
  now rewrite E.
Defined.

(** X20: when the reply of the planner parses, [plan_itinerary] returns
    the parsed value as it is: nothing compares its days with the day
    count of the preferences, or its attractions with the candidates. *)
Theorem parsed_itinerary_is_returned_unchecked
    (env : Env) (d : list (string * value)) (attractions : list Attraction)
    (style : value) (t : list string) (n pd : Z) (itinerary : value) :
  Py.int (match Py.lookup "days" d with Some v => v | None => VInt 3 end)
  = Ret n ->
  style_per_day style = Ret pd ->
  (forall prompt,
      json_loads env (llm_content env (List.length t) prompt) = Some itinerary) ->
  fst (plan_itinerary env (VDict d) attractions style t) = Ret itinerary.
Proof.
  intros Hn Hs Hj. unfold plan_itinerary. cbn [Py.get].
  unfold bindM at 1. unfold lift at 1.
  unfold bindM at 1. unfold lift at 1. rewrite Hn.
  unfold bindM at 1. unfold lift at 1. rewrite Hs.
  unfold bindM, lift, invoke. now rewrite Hj.
Qed.

(** A planner that always answers with one empty day. *)
Definition env_one_day : Env :=
  {| llm_content := fun _ _ => "one day";
     json_loads := fun _ =>
       Some (VDict [("days", VList [VDict [("day", VInt 1);
                                           ("title", VStr "Rest");
                                           ("attractions", VList [])]])]);
     json_dumps := fun _ => "{}";
     py_repr := fun _ => "";
     similarity_search := fun _ k => firstn (Z.to_nat k) sample_docs;
     PREFERENCE_EXTRACTION_SYSTEM_PROMPT := "Extract the preferences.";
     ITINERARY_PLANNER_SYSTEM_PROMPT := "Plan the days.";
     RESPONSE_SUMMARY_SYSTEM_PROMPT := "Summarise the trip." |}.

Lemma parsed_itinerary_witness :
  exists itinerary : value,
    fst (plan_itinerary env_one_day (VDict (goa_for 3 "medium" "friends"))
                        nine_places (VStr "standard") [])
    = Ret itinerary
    /\ List.length (itinerary_days itinerary) = 1%nat.
Proof.
  eexists. split.
  - exact (parsed_itinerary_is_returned_unchecked
             env_one_day (goa_for 3 "medium" "friends") nine_places
             (VStr "standard") [] 3 3 _ eq_refl eq_refl (fun _ => eq_refl)).
  - reflexivity.
Defined.
